(** * Bank-Statement-Analyser: normalisation, reconciliation and the
      transaction view

    A shallow embedding of the two places of the repository that carry
    decision logic:

    - [extractStatementDetails] of the upload route (the version with
      per-transaction currencies): the per-entry callback given to
      [flatMap], the reconciliation check and the assembled response;
    - the [StatementAnalysis] component: the search filter, the page count
      and the page slice, then the cards, the banner and the page controls;
    - the earlier copy of [extractStatementDetails] kept beside the
      current one, the [POST] handler of the upload, and the handlers of
      the [Home] page that submit a file and show what comes back.

    Conventions of the embedding.

    - A parsed JSON value is a [JSON]; an object is a finite map from
      property names to values.  [undefined] is not a JSON value: a
      property read yields [option JSON], with [None] for [undefined].
    - A JavaScript number is modelled by its value, a rational ([Q]).
      Comparison, negation and [toFixed] act on that value as ECMAScript
      defines them, and they are exact on doubles.  Addition is the
      addition of IEEE-754 binary64: the exact sum rounded to the nearest
      double, ties to even ([Number_add]), so a sum depends on the order
      of its terms as it does in the source.  The infinities and NaN are
      not numbers of the model ([parseFloat] alone can answer NaN, as
      [None]).  [===] on numbers is [Qeq].  [toFixed] prints fixed-point
      text, which is what JavaScript prints for a magnitude below 10^21;
      the exponent text it prints from 10^21 on is outside the model.
    - A string is a [string] whose characters are read as code units below
      256 (Latin-1), which is where [trim] and [toLowerCase] are defined
      here.
    - Code that can throw returns a [result]; the [try]/[catch] of
      [extractStatementDetails] is the only handler. *)

From Stdlib Require Import ZArith QArith Qround Qabs String Ascii List Lia Lqa Bool.
From Stdlib Require Import SpecFloat.
From stdpp Require Import base gmap strings.
Import ListNotations.

Local Open Scope string_scope.

(** ** JavaScript built-ins used by the source *)

Module JS.

(** *** Strings *)

(** WhiteSpace and LineTerminator code units below 256: TAB, LF, VT, FF,
    CR, SP and NBSP. *)
Definition isWhiteSpace (c : ascii) : bool :=
  match N_of_ascii c with
  | 9%N | 10%N | 11%N | 12%N | 13%N | 32%N | 160%N => true
  | _ => false
  end.

Fixpoint trimStart (s : string) : string :=
  match s with
  | EmptyString => EmptyString
  | String c s' => if isWhiteSpace c then trimStart s' else s
  end.

Fixpoint trimEnd (s : string) : string :=
  match s with
  | EmptyString => EmptyString
  | String c s' =>
      match trimEnd s' with
      | EmptyString => if isWhiteSpace c then EmptyString else String c EmptyString
      | r => String c r
      end
  end.

(** [String.prototype.trim]. *)
Definition trim (s : string) : string := trimEnd (trimStart s).

(** Lower-case mapping of one code unit: A-Z and the Latin-1 capitals
    U+00C0..U+00DE (the multiplication sign U+00D7 apart) move up by 32. *)
Definition lowerChar (c : ascii) : ascii :=
  let n := N_of_ascii c in
  if ((65 <=? n) && (n <=? 90))%N
     || ((192 <=? n) && (n <=? 222) && negb (n =? 215))%N
  then ascii_of_N (n + 32)
  else c.

(** [String.prototype.toLowerCase]. *)
Fixpoint toLowerCase (s : string) : string :=
  match s with
  | EmptyString => EmptyString
  | String c s' => String (lowerChar c) (toLowerCase s')
  end.

(** [s.includes(t)]: [t] occurs in [s] at some position. *)
Fixpoint includes (s t : string) : bool :=
  String.prefix t s
  || match s with
     | EmptyString => false
     | String _ s' => includes s' t
     end.

(** The first [n] and everything after the first [n] code units. *)
Fixpoint take (n : nat) (s : string) : string :=
  match n, s with
  | S n', String c s' => String c (take n' s')
  | _, _ => EmptyString
  end.

Fixpoint drop (n : nat) (s : string) : string :=
  match n, s with
  | S n', String _ s' => drop n' s'
  | _, _ => s
  end.

Fixpoint repeatChar (c : ascii) (n : nat) : string :=
  match n with
  | O => EmptyString
  | S n' => String c (repeatChar c n')
  end.

(** *** Numbers *)

Definition Qltb (x y : Q) : bool := negb (Qle_bool y x).

Definition digitChar (d : Z) : ascii := ascii_of_N (48 + Z.to_N d).

Definition digitValue (c : ascii) : option Z :=
  let n := N_of_ascii c in
  if ((48 <=? n) && (n <=? 57))%N then Some (Z.of_N n - 48)%Z else None.

(** The decimal digits of [n >= 0], most significant first, written in
    front of [acc]; [fuel] bounds the number of digits. *)
Fixpoint digitsAcc (fuel : nat) (n : Z) (acc : string) : string :=
  match fuel with
  | O => acc
  | S fuel' =>
      let acc' := String (digitChar (n mod 10)) acc in
      if (n <? 10)%Z then acc' else digitsAcc fuel' (n / 10) acc'
  end.

(** The decimal representation of [n >= 0] with no leading zero; a
    number below 2^k has at most k digits. *)
Definition digits (n : Z) : string :=
  digitsAcc (S (Z.to_nat (Z.log2 n))) n EmptyString.

(** [x.toFixed(2)], after Number.prototype.toFixed with fractionDigits 2
    for a magnitude below 10^21: the sign, then the integer [n] for which
    [n / 100 - |x|] is closest to zero (the larger one of two), printed
    with at least three digits and a point before the last two.  (From
    10^21 on JavaScript prints Number::toString instead, which has no
    counterpart here.) *)
Definition toFixed2 (x : Q) : string :=
  let s := if Qltb x 0 then "-" else "" in
  let n := Qfloor (Qabs x * 100 + (1 # 2)) in
  let m := digits n in
  let m := repeatChar "0" (3 - String.length m) ++ m in
  let k := String.length m in
  s ++ take (k - 2) m ++ "." ++ drop (k - 2) m.

(** Reads a run of decimal digits: the value read so far, the number of
    digits read, and the rest of the text. *)
Fixpoint readDigits (s : string) (acc : Z) (count : nat) : Z * nat * string :=
  match s with
  | EmptyString => (acc, count, s)
  | String c s' =>
      match digitValue c with
      | Some d => readDigits s' (10 * acc + d) (S count)
      | None => (acc, count, s)
      end
  end.

Definition readSign (s : string) : bool * string :=
  match s with
  | String "-" s' => (true, s')
  | String "+" s' => (false, s')
  | _ => (false, s)
  end.

Definition pow10 (e : Z) : Q := inject_Z 10 ^ e.

(** [parseFloat]: leading white space is skipped, then the longest prefix
    that is a decimal literal (sign, digits, fraction, exponent) is
    read; [None] stands for NaN.  The literal [Infinity] is not a number
    of the model. *)
Definition parseFloat (text : string) : option Q :=
  let '(neg, s0) := readSign (trimStart text) in
  let '(ip, ni, s1) := readDigits s0 0 0 in
  let '(fp, nf, s2) :=
    match s1 with
    | String "." s' => readDigits s' 0 0
    | _ => (0%Z, 0%nat, s1)
    end in
  if (ni + nf =? 0)%nat then None
  else
    let m := (inject_Z ip + inject_Z fp / pow10 (Z.of_nat nf))%Q in
    let m :=
      match s2 with
      | String c s3 =>
          if (Ascii.eqb c "e" || Ascii.eqb c "E")%bool then
            let '(eneg, s4) := readSign s3 in
            let '(ev, ne, _) := readDigits s4 0 0 in
            if (ne =? 0)%nat then m
            else (m * pow10 (if eneg then - ev else ev))%Q
          else m
      | EmptyString => m
      end in
    Some (if neg then (- m)%Q else m).

(** [a === b] on two numbers, [None] being NaN. *)
Definition strictEqNumber (a b : option Q) : bool :=
  match a, b with
  | Some p, Some q => Qeq_bool p q
  | _, _ => false
  end.

(** *** Arithmetic on doubles *)

(** The value of a finite binary64 datum, mantissa times a power of two;
    [None] for an infinity and for NaN. *)
Definition valueOf (f : spec_float) : option Q :=
  match f with
  | S754_zero _ => Some 0%Q
  | S754_finite s m e =>
      let v :=
        if (0 <=? e)%Z then inject_Z (Z.pos m * 2 ^ e)
        else Z.pos m # (2 ^ Z.to_pos (- e)) in
      Some (if s then (- v)%Q else v)
  | S754_infinity _ => None
  | S754_nan => None
  end.

(** The double nearest to a rational, of two nearest the one with an even
    mantissa: the rounding every IEEE-754 operation ends with.  It is the
    correctly rounded binary64 division ([SFdiv] with precision 53 and
    maximal exponent 1024) of the numerator by the denominator.  A
    magnitude that rounds to an infinity (from 2^1024 - 2^970 on) is left
    as it is: the infinities are not numbers of the model, and such a
    magnitude is far beyond 10^21, where [toFixed] is outside it too. *)
Definition roundToDouble (x : Q) : Q :=
  match Qnum x with
  | Z0 => 0%Q
  | Zpos n | Zneg n =>
      match valueOf (SFdiv 53 1024 (S754_finite (Qnum x <? 0)%Z n 0)
                                   (S754_finite false (Qden x) 0)) with
      | Some v => Qred v
      | None => x
      end
  end.

(** [x + y] on two numbers (Number::add): the sum, rounded to a double. *)
Definition Number_add (x y : Q) : Q := roundToDouble (x + y).

(** *** Values *)

Local Unset Elimination Schemes.

(** What [JSON.parse] can return. *)
Inductive JSON : Type :=
| JNull
| JBool (b : bool)
| JNum (x : Q)
| JStr (s : string)
| JArr (l : list JSON)
| JObj (m : gmap string JSON).

Local Set Elimination Schemes.

(** [typeof v], [None] being [undefined]. *)
Definition typeof (v : option JSON) : string :=
  match v with
  | None => "undefined"
  | Some JNull => "object"
  | Some (JBool _) => "boolean"
  | Some (JNum _) => "number"
  | Some (JStr _) => "string"
  | Some (JArr _) => "object"
  | Some (JObj _) => "object"
  end.

(** ToBoolean. *)
Definition truthy (v : option JSON) : bool :=
  match v with
  | None => false
  | Some JNull => false
  | Some (JBool b) => b
  | Some (JNum x) => negb (Qeq_bool x 0)
  | Some (JStr s) => negb (String.eqb s "")
  | Some (JArr _) => true
  | Some (JObj _) => true
  end.

(** The string, the number and the elements a value holds, read after a
    [typeof] or [Array.isArray] test has established its type. *)
Definition stringOf (v : option JSON) : string :=
  match v with Some (JStr s) => s | _ => "" end.

Definition numberOf (v : option JSON) : Q :=
  match v with Some (JNum x) => x | _ => 0 end.

Definition Array_isArray (v : option JSON) : bool :=
  match v with Some (JArr _) => true | _ => false end.

Definition elementsOf (v : option JSON) : list JSON :=
  match v with Some (JArr l) => l | _ => [] end.

(** *** Exceptions *)

Inductive exn : Type :=
| TypeError
| SyntaxError
| Error (message : string)
| Rejected.

Inductive result (A : Type) : Type :=
| Ok (a : A)
| Throw (e : exn).

Arguments Ok {A} a.
Arguments Throw {A} e.

Definition bind {A B : Type} (r : result A) (k : A -> result B) : result B :=
  match r with
  | Ok a => k a
  | Throw e => Throw e
  end.

(** [v.k] for a property name [k] that no prototype defines, which is the
    case of every name the source reads ([date], [description],
    [moneyIn], [moneyOut], [currency], [name], [address],
    [startingBalance], [endingBalance], [transactions]): the own property
    of an object, [undefined] on any other value, and a TypeError on
    [null]. *)
Definition get (v : JSON) (k : string) : result (option JSON) :=
  match v with
  | JNull => Throw TypeError
  | JObj m => Ok (m !! k)
  | _ => Ok None
  end.

(** [Array.prototype.flatMap] with a callback that returns an array and
    may throw: the callback runs on the elements from left to right and
    the first exception ends the call. *)
Fixpoint flatMap {A B : Type} (f : A -> result (list B)) (l : list A)
  : result (list B) :=
  match l with
  | [] => Ok []
  | x :: l' =>
      bind (f x) (fun ys =>
      bind (flatMap f l') (fun rest => Ok (ys ++ rest)%list))
  end.

(** [Array.prototype.slice(start, end)] on integer arguments: a negative
    index counts from the end, and both are clamped to the array. *)
Definition sliceIndex (len i : Z) : Z :=
  if (i <? 0)%Z then Z.max (len + i) 0 else Z.min i len.

Definition slice {A : Type} (l : list A) (start finish : Z) : list A :=
  let len := Z.of_nat (length l) in
  let k := sliceIndex len start in
  let final := sliceIndex len finish in
  firstn (Z.to_nat (Z.max (final - k) 0)) (skipn (Z.to_nat k) l).

End JS.

Import JS.

Declare Scope js_scope.
Delimit Scope js_scope with js.
Notation "'let*' x ':=' r 'in' k" := (bind r (fun x => k))
  (at level 10, x name, r at level 100, k at level 200) : js_scope.
Local Open Scope js_scope.

(** ** The upload route: [extractStatementDetails] *)

Module Transaction.
(** [interface Transaction] of the route.  The currency is a value: it is
    the entry's string, or whatever truthy value the statement carries,
    or ["$"]. *)
Record t : Type := make {
  date : string;
  desc : string;
  amount : Q;
  currency : JSON;
}.
End Transaction.

Module StatementDetails.
(** [interface StatementDetails] of the route.  A header field holds what
    the response holds: [Some JNull] is [null], [None] is [undefined];
    [reconciles] is [null] when [None]; [currency] and [error] are
    optional properties. *)
Record t : Type := make {
  name : option JSON;
  address : option JSON;
  date : option JSON;
  startingBalance : option JSON;
  endingBalance : option JSON;
  transactions : list Transaction.t;
  reconciles : option bool;
  currency : option JSON;
  error : option string;
}.
End StatementDetails.

Module Route.

(** [v || d] on values. *)
Definition orElse (v : option JSON) (d : JSON) : JSON :=
  match v with
  | Some c => if truthy v then c else d
  | None => d
  end.

(** The callback given to [rawTransactions.flatMap]: no transaction for
    an entry that is dropped, one for an entry that is kept. *)
Definition normalizeEntry (currency : option JSON) (tx : JSON)
  : result (list Transaction.t) :=
  let* tx_date := get tx "date" in
  if negb (typeof tx_date =? "string") then Ok [] else
  let* tx_description := get tx "description" in
  if negb (typeof tx_description =? "string") then Ok [] else
  let* tx_moneyIn := get tx "moneyIn" in
  let moneyIn := if typeof tx_moneyIn =? "number" then numberOf tx_moneyIn else 0%Q in
  let* tx_moneyOut := get tx "moneyOut" in
  let moneyOut := if typeof tx_moneyOut =? "number" then numberOf tx_moneyOut else 0%Q in
  let* tx_currency := get tx "currency" in
  let txCurrency :=
    if typeof tx_currency =? "string" then JStr (stringOf tx_currency)
    else orElse currency (JStr "$") in
  if Qltb 0%Q moneyIn && Qltb 0%Q moneyOut then Ok [] (* ambiguous *) else
  if Qltb moneyIn 0%Q || Qltb moneyOut 0%Q then Ok [] (* invalid *) else
  Ok [ {| Transaction.date := trim (stringOf tx_date);
          Transaction.desc :=
            (let d := trim (stringOf tx_description) in
             if d =? "" then "No Description" else d);
          Transaction.amount := if Qltb 0%Q moneyIn then moneyIn else (- moneyOut)%Q;
          Transaction.currency := txCurrency |} ].

(** [const transactions = Array.isArray(rawTransactions) ? ... : []]. *)
Definition normalizeTransactions (currency rawTransactions : option JSON)
  : result (list Transaction.t) :=
  if Array_isArray rawTransactions
  then flatMap (normalizeEntry currency) (elementsOf rawTransactions)
  else Ok [].

(** [transactions.reduce((acc, t) => acc + t.amount, 0)]: the amounts are
    added to the accumulator one after the other, each sum rounded. *)
Definition sumTx (transactions : list Transaction.t) : Q :=
  fold_left (fun acc t => Number_add acc (Transaction.amount t)) transactions 0%Q.

(** The reconciliation verdict; [None] is [null].  [startingBalance +
    sumTx] is one more rounded sum, and it is that double [toFixed]
    prints. *)
Definition reconciles (startingBalance endingBalance : option JSON)
  (transactions : list Transaction.t) : option bool :=
  if (typeof startingBalance =? "number") && (typeof endingBalance =? "number")
  then
    Some (strictEqNumber
            (parseFloat (toFixed2 (Number_add (numberOf startingBalance)
                                              (sumTx transactions))))
            (parseFloat (toFixed2 (numberOf endingBalance))))
  else None.

(** [transactions[0]?.currency ?? "$"]. *)
Definition firstCurrency (transactions : list Transaction.t) : JSON :=
  match transactions with
  | [] => JStr "$"
  | t :: _ =>
      match Transaction.currency t with
      | JNull => JStr "$"
      | c => c
      end
  end.

(** What the [catch] clause returns. *)
Definition failure : StatementDetails.t :=
  {| StatementDetails.error := Some "Failed to extract statement details";
     StatementDetails.name := Some JNull;
     StatementDetails.address := Some JNull;
     StatementDetails.date := Some JNull;
     StatementDetails.startingBalance := Some JNull;
     StatementDetails.endingBalance := Some JNull;
     StatementDetails.transactions := [];
     StatementDetails.reconciles := None;
     StatementDetails.currency := None |}.

(** The JSON object a transaction is sent as by [NextResponse.json]. *)
Definition transactionJSON (t : Transaction.t) : JSON :=
  JObj (<["date" := JStr (Transaction.date t)]>
       (<["desc" := JStr (Transaction.desc t)]>
       (<["amount" := JNum (Transaction.amount t)]>
       (<["currency" := Transaction.currency t]> ∅)))).

Section Extract.

(** [JSON.parse], which throws on text that is not JSON. *)
Variable JSON_parse : string -> result JSON.

(** The part of the [try] block that follows the parse: the
    destructuring of [parsed], the transactions, the verdict and the
    response. *)
Definition assemble (parsed : JSON) : result StatementDetails.t :=
  let* name := get parsed "name" in
  let* address := get parsed "address" in
  let* date := get parsed "date" in
  let* startingBalance := get parsed "startingBalance" in
  let* endingBalance := get parsed "endingBalance" in
  let* rawTransactions := get parsed "transactions" in
  let* currency := get parsed "currency" in
  let* transactions := normalizeTransactions currency rawTransactions in
  Ok {| StatementDetails.name := name;
        StatementDetails.address := address;
        StatementDetails.date := date;
        StatementDetails.startingBalance := startingBalance;
        StatementDetails.endingBalance := endingBalance;
        StatementDetails.transactions := transactions;
        StatementDetails.reconciles :=
          reconciles startingBalance endingBalance transactions;
        StatementDetails.currency :=
          Some (orElse currency (firstCurrency transactions));
        StatementDetails.error := None |}.

(** The [try] block.  [reply] is the outcome of the completion call: an
    exception when the call is rejected or the reply has no choice,
    else the content of the first choice, [None] being [null]. *)
Definition tryBlock (reply : result (option string)) : result StatementDetails.t :=
  let* content := reply in
  match content with
  | None => Throw (Error "Empty LLM response")
  | Some text =>
      if text =? "" then Throw (Error "Empty LLM response")
      else
        let* parsed := JSON_parse text in
        assemble parsed
  end.

Definition extractStatementDetails (reply : result (option string))
  : StatementDetails.t :=
  match tryBlock reply with
  | Ok details => details
  | Throw _ => failure
  end.

End Extract.

End Route.

(** ** The transaction view: [StatementAnalysis] *)

Module View.

(** [interface Transaction] of the component. *)
Record Transaction : Type := {
  date : string;
  desc : string;
  amount : Q;
}.

Definition matches (term : string) (tx : Transaction) : bool :=
  includes (toLowerCase (date tx)) term
  || includes (toLowerCase (desc tx)) term
  || includes (toFixed2 (amount tx)) term.

Definition filteredTransactions (search : string) (transactions : list Transaction)
  : list Transaction :=
  let term := toLowerCase (trim search) in
  if term =? "" then transactions
  else List.filter (matches term) transactions.

(** [Math.ceil(filteredTransactions.length / pageSize) || 1], for a page
    size that is an integer other than 0 (the options of the select are
    5, 10, 15, 25 and 50). *)
Definition pageCount (filtered : list Transaction) (pageSize : Z) : Z :=
  let c := Qceiling (inject_Z (Z.of_nat (length filtered)) / inject_Z pageSize) in
  if (c =? 0)%Z then 1%Z else c.

Definition paginatedTransactions (filtered : list Transaction) (page pageSize : Z)
  : list Transaction :=
  slice filtered ((page - 1) * pageSize) (page * pageSize).

End View.

(** ** The properties, in the words of the specification *)

Module Spec.

(** The field [k] of a raw entry: the property of an object, absent on a
    value that is not an object. *)
Definition field (tx : JSON) (k : string) : option JSON :=
  match tx with
  | JObj m => m !! k
  | _ => None
  end.

Definition isString (v : option JSON) : Prop := exists s, v = Some (JStr s).

Definition isNumber (v : option JSON) : Prop := exists x, v = Some (JNum x).

(** A money field resolved to a number: its value when numeric, else 0. *)
Definition resolved (tx : JSON) (k : string) : Q :=
  match field tx k with
  | Some (JNum x) => x
  | _ => 0%Q
  end.

(** The entries the Normalizer is to drop. *)
Definition dropCondition (tx : JSON) : Prop :=
  ~ isString (field tx "date")
  \/ ~ isString (field tx "description")
  \/ (0 < resolved tx "moneyIn" /\ 0 < resolved tx "moneyOut")%Q
  \/ (resolved tx "moneyIn" < 0 \/ resolved tx "moneyOut" < 0)%Q.

(** The transaction emitted for an entry that is kept. *)
Definition emitted (currency : option JSON) (tx : JSON) : Transaction.t :=
  {| Transaction.date := trim (stringOf (field tx "date"));
     Transaction.desc :=
       (let d := trim (stringOf (field tx "description")) in
        if (d =? "")%string then "No Description"%string else d);
     Transaction.amount :=
       if Qltb 0%Q (resolved tx "moneyIn") then resolved tx "moneyIn"
       else (- resolved tx "moneyOut")%Q;
     Transaction.currency :=
       if (typeof (field tx "currency") =? "string")%string
       then JStr (stringOf (field tx "currency"))
       else Route.orElse currency (JStr "$") |}.

(** The value of a run of decimal digits read after [acc], and the texts
    made of decimal digits only. *)
Fixpoint horner (s : string) (acc : Z) : Z :=
  match s with
  | EmptyString => acc
  | String c s' =>
      match digitValue c with
      | Some d => horner s' (10 * acc + d)
      | None => acc
      end
  end.

Fixpoint allDigits (s : string) : bool :=
  match s with
  | EmptyString => true
  | String c s' =>
      match digitValue c with
      | Some _ => allDigits s'
      | None => false
      end
  end.

(** A number rounded to 2 decimal places, as its count of hundredths: the
    nearest one, and of two nearest the one away from zero. *)
Definition roundCents (x : Q) : Z :=
  if Qle_bool 0 x then Qfloor (x * 100 + (1 # 2))
  else Qceiling (x * 100 - (1 # 2)).

(** The sum of the amounts of a list of transactions as a program on
    doubles forms it: from zero, the amounts added in the order of the
    list. *)
Definition total (transactions : list Transaction.t) : Q :=
  fold_left Number_add (map Transaction.amount transactions) 0%Q.

(** The same amounts added as rationals, with no rounding. *)
Definition exactTotal (transactions : list Transaction.t) : Q :=
  fold_right (fun t s => (Transaction.amount t + s)%Q) 0%Q transactions.

(** The first and the last code unit of a text. *)
Definition firstChar (s : string) : option ascii :=
  match s with
  | EmptyString => None
  | String c _ => Some c
  end.

Fixpoint lastChar (s : string) : option ascii :=
  match s with
  | EmptyString => None
  | String c EmptyString => Some c
  | String _ s' => lastChar s'
  end.

(** A text with no surrounding white space. *)
Definition trimmed (s : string) : Prop :=
  (forall c, firstChar s = Some c -> isWhiteSpace c = false)
  /\ (forall c, lastChar s = Some c -> isWhiteSpace c = false).

(** The canonical field invariants of a Transaction: a non-empty date with
    no surrounding white space, a non-empty description with no surrounding
    white space, a non-empty string as currency. *)
Definition canonicalFields (t : Transaction.t) : Prop :=
  Transaction.date t <> "" /\ trimmed (Transaction.date t)
  /\ Transaction.desc t <> "" /\ trimmed (Transaction.desc t)
  /\ exists c, Transaction.currency t = JStr c /\ c <> "".

(** A header field holds [null] or a value of the expected primitive
    type. *)
Definition conforms (type : string) (v : option JSON) : Prop :=
  v = Some JNull \/ typeof v = type.

Definition headersCoerced (d : StatementDetails.t) : Prop :=
  conforms "string" (StatementDetails.name d)
  /\ conforms "string" (StatementDetails.address d)
  /\ conforms "string" (StatementDetails.date d)
  /\ conforms "number" (StatementDetails.startingBalance d)
  /\ conforms "number" (StatementDetails.endingBalance d).

(** A parsed value that is an object. *)
Definition isObject (v : JSON) : Prop := exists m, v = JObj m.

(** The reply is empty or cannot be parsed as structured data: it has no
    content, its content is empty, the content is not JSON, or it is JSON
    whose top-level value is not an object. *)
Definition unstructured (parse : string -> result JSON)
    (reply : result (option string)) : Prop :=
  reply = Ok None
  \/ reply = Ok (Some "")
  \/ exists text, reply = Ok (Some text)
       /\ ((exists e, parse text = Throw e)
           \/ (exists v, parse text = Ok v /\ ~ isObject v)).

(** A result that carries an error together with the Ledger of
    defaults. *)
Definition errorWithDefaults (d : StatementDetails.t) : Prop :=
  StatementDetails.error d <> None
  /\ StatementDetails.name d = Some JNull
  /\ StatementDetails.address d = Some JNull
  /\ StatementDetails.date d = Some JNull
  /\ StatementDetails.startingBalance d = Some JNull
  /\ StatementDetails.endingBalance d = Some JNull
  /\ StatementDetails.transactions d = []
  /\ StatementDetails.reconciles d = None.

(** An already-canonical entry: string date and description, non-empty
    and with no surrounding white space, a string currency, and money
    fields of which none is negative and at most one is positive. *)
Definition canonicalEntry (tx : JSON) : Prop :=
  (exists d, field tx "date" = Some (JStr d) /\ d <> "" /\ trimmed d)
  /\ (exists d, field tx "description" = Some (JStr d) /\ d <> "" /\ trimmed d)
  /\ isString (field tx "currency")
  /\ (0 <= resolved tx "moneyIn")%Q /\ (0 <= resolved tx "moneyOut")%Q
  /\ ~ (0 < resolved tx "moneyIn" /\ 0 < resolved tx "moneyOut")%Q.

(** A transaction carries the fields of the entry it comes from. *)
Definition sameFields (tx : JSON) (t : Transaction.t) : Prop :=
  field tx "date" = Some (JStr (Transaction.date t))
  /\ field tx "description" = Some (JStr (Transaction.desc t))
  /\ field tx "currency" = Some (Transaction.currency t)
  /\ ((0 < resolved tx "moneyIn")%Q -> Transaction.amount t = resolved tx "moneyIn")
  /\ (~ (0 < resolved tx "moneyIn")%Q ->
      Transaction.amount t = (- resolved tx "moneyOut")%Q).

(** [t] is a substring of [s]. *)
Definition occursIn (t s : string) : Prop := exists a b, s = a ++ t ++ b.

(** The transactions the search keeps: the term, trimmed and in lower
    case, is a substring of the date in lower case, of the description in
    lower case, or of the amount printed with 2 decimals. *)
Definition kept (search : string) (tx : View.Transaction) : Prop :=
  let term := toLowerCase (trim search) in
  occursIn term (toLowerCase (View.date tx))
  \/ occursIn term (toLowerCase (View.desc tx))
  \/ occursIn term (toFixed2 (View.amount tx)).

End Spec.

Import Spec.

(** ** Sample data *)

Module Sample.

Definition entry (date description : string) (moneyIn moneyOut : Q) : JSON :=
  JObj (<["date" := JStr date]>
       (<["description" := JStr description]>
       (<["moneyIn" := JNum moneyIn]>
       (<["moneyOut" := JNum moneyOut]>
       (<["currency" := JStr "GBP"]> ∅))))).

Definition coffee : JSON := entry "01-01-2024" "Coffee Shop" 0 (35 # 10).
Definition salary : JSON := entry "02-01-2024" "Salary" 2000 0.
Definition both : JSON := entry "03-01-2024" "Transfer" 10 5.

Definition coffeeTx : Transaction.t :=
  {| Transaction.date := "01-01-2024"; Transaction.desc := "Coffee Shop";
     Transaction.amount := - (35 # 10); Transaction.currency := JStr "GBP" |}.

(** An entry with a blank date and an empty currency. *)
Definition undated : JSON :=
  JObj (<["date" := JStr "  "]>
       (<["description" := JStr "Rent"]>
       (<["moneyOut" := JNum 500]>
       (<["currency" := JStr ""]> ∅)))).

Definition undatedTx : Transaction.t :=
  {| Transaction.date := ""; Transaction.desc := "Rent";
     Transaction.amount := - (500); Transaction.currency := JStr "" |}.

Definition salaryTx : Transaction.t :=
  {| Transaction.date := "02-01-2024"; Transaction.desc := "Salary";
     Transaction.amount := 2000; Transaction.currency := JStr "GBP" |}.

(** Numbers whose sums are rounded: the doubles nearest to 0.015 and to
    100.02, and 1e16. *)
Definition credit : Transaction.t :=
  {| Transaction.date := "04-01-2024"; Transaction.desc := "Interest";
     Transaction.amount := roundToDouble (15 # 1000);
     Transaction.currency := JStr "GBP" |}.

Definition ending : Q := roundToDouble (10002 # 100).

Definition e16 : Q := 10000000000000000.

Definition moved (amount : Q) : Transaction.t :=
  {| Transaction.date := "05-01-2024"; Transaction.desc := "Transfer";
     Transaction.amount := amount; Transaction.currency := JStr "GBP" |}.

Definition cancelling : list Transaction.t :=
  [moved e16; moved 1; moved (- e16)].

(** A statement whose second transaction is [null], and a [JSON.parse]
    that reads the reply as this statement. *)
Definition holed : JSON :=
  JObj (<["transactions" := JArr [coffee; JNull]]> ∅).

Definition parseHoled (text : string) : result JSON := Ok holed.

(** A statement whose name is a number, its other headers being of the
    expected types. *)
Definition mistyped : JSON :=
  JObj (<["name" := JNum 5]>
       (<["address" := JStr "1 High Street"]>
       (<["date" := JNull]>
       (<["startingBalance" := JNum 100]>
       (<["endingBalance" := JNum 100]> ∅))))).

Definition mistypedDetails : StatementDetails.t :=
  {| StatementDetails.name := Some (JNum 5);
     StatementDetails.address := Some (JStr "1 High Street");
     StatementDetails.date := Some JNull;
     StatementDetails.startingBalance := Some (JNum 100);
     StatementDetails.endingBalance := Some (JNum 100);
     StatementDetails.transactions := [];
     StatementDetails.reconciles := Some true;
     StatementDetails.currency := Some (JStr "$");
     StatementDetails.error := None |}.

(** The two transactions of the search example. *)
Definition ledger : list View.Transaction :=
  [ {| View.date := "01-01-2024"; View.desc := "Coffee Shop"; View.amount := - (35 # 10) |};
    {| View.date := "02-01-2024"; View.desc := "Salary"; View.amount := 2000 |} ].

(** Twelve transactions. *)
Definition twelve : list View.Transaction :=
  map (fun n => {| View.date := "01-01-2024"; View.desc := "Item";
                   View.amount := inject_Z (Z.of_nat n) |}) (seq 1 12).

End Sample.

(** ** The earlier copy of the route

    The file of the route holds a second, earlier [extractStatementDetails],
    without currencies: its transactions have three fields, and its
    response is built with [?? null] on the texts and a [typeof] test on
    the balances. *)

Module Earlier.

Module Transaction.
Record t : Type := make {
  date : string;
  desc : string;
  amount : Q;
}.
End Transaction.

Module StatementDetails.
Record t : Type := make {
  name : option JSON;
  address : option JSON;
  date : option JSON;
  startingBalance : option JSON;
  endingBalance : option JSON;
  transactions : list Transaction.t;
  reconciles : option bool;
  error : option string;
}.
End StatementDetails.

(** [v ?? null]. *)
Definition orNull (v : option JSON) : JSON :=
  match v with
  | None => JNull
  | Some JNull => JNull
  | Some x => x
  end.

Definition normalizeEntry (tx : JSON) : result (list Transaction.t) :=
  let* tx_date := get tx "date" in
  if negb (typeof tx_date =? "string") then Ok [] else
  let* tx_description := get tx "description" in
  if negb (typeof tx_description =? "string") then Ok [] else
  let* tx_moneyIn := get tx "moneyIn" in
  let moneyIn := if typeof tx_moneyIn =? "number" then numberOf tx_moneyIn else 0%Q in
  let* tx_moneyOut := get tx "moneyOut" in
  let moneyOut := if typeof tx_moneyOut =? "number" then numberOf tx_moneyOut else 0%Q in
  if Qltb 0%Q moneyIn && Qltb 0%Q moneyOut then Ok [] (* ambiguous *) else
  if Qltb moneyIn 0%Q || Qltb moneyOut 0%Q then Ok [] (* invalid *) else
  Ok [ {| Transaction.date := trim (stringOf tx_date);
          Transaction.desc :=
            (let d := trim (stringOf tx_description) in
             if d =? "" then "No Description" else d);
          Transaction.amount := if Qltb 0%Q moneyIn then moneyIn else (- moneyOut)%Q |} ].

Definition normalizeTransactions (rawTransactions : option JSON)
  : result (list Transaction.t) :=
  if Array_isArray rawTransactions
  then flatMap normalizeEntry (elementsOf rawTransactions)
  else Ok [].

Definition sumTx (transactions : list Transaction.t) : Q :=
  fold_left (fun acc t => Number_add acc (Transaction.amount t)) transactions 0%Q.

Definition reconciles (startingBalance endingBalance : option JSON)
  (transactions : list Transaction.t) : option bool :=
  if (typeof startingBalance =? "number") && (typeof endingBalance =? "number")
  then
    Some (strictEqNumber
            (parseFloat (toFixed2 (Number_add (numberOf startingBalance)
                                              (sumTx transactions))))
            (parseFloat (toFixed2 (numberOf endingBalance))))
  else None.

(** [typeof v === "number" ? v : null]. *)
Definition numberOrNull (v : option JSON) : JSON :=
  if typeof v =? "number" then JNum (numberOf v) else JNull.

Definition failure : StatementDetails.t :=
  {| StatementDetails.error := Some "Failed to extract statement details";
     StatementDetails.name := Some JNull;
     StatementDetails.address := Some JNull;
     StatementDetails.date := Some JNull;
     StatementDetails.startingBalance := Some JNull;
     StatementDetails.endingBalance := Some JNull;
     StatementDetails.transactions := [];
     StatementDetails.reconciles := None |}.

Definition assemble (parsed : JSON) : result StatementDetails.t :=
  let* name := get parsed "name" in
  let* address := get parsed "address" in
  let* date := get parsed "date" in
  let* startingBalance := get parsed "startingBalance" in
  let* endingBalance := get parsed "endingBalance" in
  let* rawTransactions := get parsed "transactions" in
  let* transactions := normalizeTransactions rawTransactions in
  Ok {| StatementDetails.name := Some (orNull name);
        StatementDetails.address := Some (orNull address);
        StatementDetails.date := Some (orNull date);
        StatementDetails.startingBalance := Some (numberOrNull startingBalance);
        StatementDetails.endingBalance := Some (numberOrNull endingBalance);
        StatementDetails.transactions := transactions;
        StatementDetails.reconciles :=
          reconciles startingBalance endingBalance transactions;
        StatementDetails.error := None |}.

Section Extract.

Variable JSON_parse : string -> result JSON.

Definition tryBlock (reply : result (option string)) : result StatementDetails.t :=
  let* content := reply in
  match content with
  | None => Throw (Error "Empty LLM response")
  | Some text =>
      if text =? "" then Throw (Error "Empty LLM response")
      else
        let* parsed := JSON_parse text in
        assemble parsed
  end.

Definition extractStatementDetails (reply : result (option string))
  : StatementDetails.t :=
  match tryBlock reply with
  | Ok details => details
  | Throw _ => failure
  end.

End Extract.

End Earlier.

(** ** The handler of the upload: [POST] *)

Module Upload.

(** What [formData.get("file")] returns: nothing, a text field, or a file
    with its bytes. *)
Inductive FormValue : Type :=
| NoValue
| TextValue (text : string)
| BlobValue (bytes : string).

(** What a call outside the route throws: an [Error] with its message, or
    a value that is not an [Error]. *)
Inductive Thrown : Type :=
| ErrorObject (message : string)
| OtherValue.

Inductive Awaited (A : Type) : Type :=
| Resolved (a : A)
| Failed (t : Thrown).

Arguments Resolved {A} a.
Arguments Failed {A} t.

(** A [NextResponse.json(body, { status })]. *)
Record Response : Type := {
  status : Z;
  body : JSON;
}.

(** [JSON.stringify] leaves out a property whose value is [undefined]. *)
Definition setField (k : string) (v : option JSON) (m : gmap string JSON)
  : gmap string JSON :=
  match v with
  | Some x => <[k := x]> m
  | None => m
  end.

(** The body [NextResponse.json(details)] sends, as the client parses
    it. *)
Definition detailsJSON (d : StatementDetails.t) : JSON :=
  JObj (setField "name" (StatementDetails.name d)
       (setField "address" (StatementDetails.address d)
       (setField "date" (StatementDetails.date d)
       (setField "startingBalance" (StatementDetails.startingBalance d)
       (setField "endingBalance" (StatementDetails.endingBalance d)
       (<["transactions" :=
            JArr (map Route.transactionJSON (StatementDetails.transactions d))]>
       (<["reconciles" :=
            match StatementDetails.reconciles d with
            | Some b => JBool b
            | None => JNull
            end]>
       (setField "currency" (StatementDetails.currency d)
       (setField "error" (JStr <$> StatementDetails.error d) ∅))))))))).

Definition errorBody (message : string) : JSON :=
  JObj (<["error" := JStr message]> ∅).

(** The [catch] clause of [POST]. *)
Definition caught (t : Thrown) : Response :=
  {| status := 500;
     body := errorBody match t with
                       | ErrorObject message => message
                       | OtherValue => "Unexpected error"
                       end |}.

Section Post.

(** [pdfParse] on the bytes of the file, giving the text of the document
    or throwing; [JSON.parse]; and the completion call on the prompt made
    from the text. *)
Variable pdfParse : string -> Awaited string.
Variable JSON_parse : string -> result JSON.
Variable complete : string -> result (option string).

(** [POST].  [form] is the outcome of [req.formData()] followed by
    [get("file")]. *)
Definition POST (form : Awaited FormValue) : Response :=
  match form with
  | Failed t => caught t
  | Resolved (BlobValue bytes) =>
      match pdfParse bytes with
      | Failed t => caught t
      | Resolved text =>
          if (text =? "") || (trim text =? "")
          then {| status := 500; body := errorBody "Could not extract text from PDF" |}
          else {| status := 200;
                  body := detailsJSON
                            (Route.extractStatementDetails JSON_parse (complete text)) |}
      end
  | Resolved _ => {| status := 400; body := errorBody "No file uploaded" |}
  end.

End Post.

End Upload.

(** ** The page: [Home] *)

Module Home.

(** A [File] of the browser, with the bytes it uploads. *)
Record File : Type := {
  name : string;
  type : string;
  bytes : string;
}.

(** The state of the component; [None] is [null]. *)
Record State : Type := {
  file : option File;
  result : option JSON;
  loading : bool;
  error : option JSON;
}.

Definition initial : State :=
  {| file := None; result := None; loading := false; error := None |}.

Definition handleFileChange (selectedFile : option File) (st : State) : State :=
  match selectedFile with
  | Some f =>
      if type f =? "application/pdf"
      then {| file := Some f; result := result st; loading := loading st; error := None |}
      else {| file := None; result := result st; loading := loading st;
              error := Some (JStr "Invalid file type. Please upload a PDF.") |}
  | None =>
      {| file := None; result := result st; loading := loading st;
         error := Some (JStr "Invalid file type. Please upload a PDF.") |}
  end.

Definition clearFile (st : State) : State :=
  {| file := None; result := result st; loading := loading st; error := error st |}.

(** What [fetch] and [res.json()] come to: a rejected [fetch], or a
    response with its [ok] flag and its body parsed, or not. *)
Inductive Fetched : Type :=
| NetworkError
| Responded (ok : bool) (data : JS.result JSON).

(** [handleSubmit] is asynchronous: it runs in two parts, and between
    them the page is rendered and handles other events.

    The first part runs when the form is submitted with a file:
    [setLoading(true); setError(null); setResult(null)], then the
    request is sent with that file. *)
Definition submitBegin (st : State) : State :=
  {| file := file st; result := None; loading := true; error := None |}.

(** The second part runs once [fetch] and [res.json()] have settled: the
    [try] block sets the error or the result, the [catch] clause sets the
    error, and [finally] turns [loading] off.  Each setter replaces one
    variable of the state as it is by then and leaves the others. *)
Definition submitSettle (fetched : Fetched) (st : State) : State :=
  let setError e :=
    {| file := file st; result := result st; loading := false; error := Some e |} in
  let setResult data :=
    {| file := file st; result := Some data; loading := false; error := error st |} in
  match fetched with
  | NetworkError => setError (JStr "Failed to fetch")
  | Responded ok (Throw _) => setError (JStr "Failed to fetch")
  | Responded ok (Ok data) =>
      (* [!res.ok || data.error], then [data.error || '...']: whichever
         reads [data.error] first throws when [data] is [null] *)
      match get data "error" with
      | Throw _ => setError (JStr "Failed to fetch")
      | Ok data_error =>
          if negb ok || truthy data_error
          then setError (Route.orElse data_error
                           (JStr "An unknown error occurred during parsing."))
          else setResult data
      end
  end.

(** A run of [handleSubmit] from its first line to its last with no
    other handler in between: nothing without a file, else the two parts
    one after the other. *)
Definition handleSubmit (fetch : File -> Fetched) (st : State) : State :=
  match file st with
  | None => st
  | Some f => submitSettle (fetch f) (submitBegin st)
  end.

(** [result && !error && <StatementAnalysis data={result} />]: the data
    [StatementAnalysis] is given when the guard holds, [None] when it
    does not. *)
Definition analysed (st : State) : option JSON :=
  if truthy (result st) && negb (truthy (error st)) then result st else None.

(** [res.ok]. *)
Definition okStatus (status : Z) : bool := (200 <=? status)%Z && (status <=? 299)%Z.

(** The [fetch] of the page against the handler of the upload. *)
Definition fetchFrom (post : Upload.Awaited Upload.FormValue -> Upload.Response)
  (f : File) : Fetched :=
  let response := post (Upload.Resolved (Upload.BlobValue (bytes f))) in
  Responded (okStatus (Upload.status response)) (Ok (Upload.body response)).

End Home.

(** ** The rest of [StatementAnalysis]: the cards and the page controls *)

Module Controls.

(** [Array.from({length: pageCount}, (_, i) => i + 1)]. *)
Definition pageNumbers (pageCount : Z) : list Z :=
  map (fun i => (Z.of_nat i + 1)%Z) (seq 0 (Z.to_nat pageCount)).

(** The page numbers that get a button. *)
Definition pageButtons (pageCount page : Z) : list Z :=
  slice (pageNumbers pageCount) (Z.max 0 (page - 3)) (Z.min pageCount (page + 2)).

(** The search and pagination state. *)
Record State : Type := {
  search : string;
  page : Z;
  pageSize : Z;
}.

Definition initial : State := {| search := ""; page := 1; pageSize := 10 |}.

(** What the user does: types in the search box, picks a page size, or
    presses the previous, the next or a numbered button. *)
Inductive Event : Type :=
| Search (value : string)
| PageSize (value : Z)
| Previous
| Next
| Goto (pn : Z).

(** [pageCount] as the render of [st] computes it. *)
Definition pageCountOf (transactions : list View.Transaction) (st : State) : Z :=
  View.pageCount (View.filteredTransactions (search st) transactions) (pageSize st).

(** The state update of each handler. *)
Definition handle (transactions : list View.Transaction) (st : State) (ev : Event)
  : State :=
  match ev with
  | Search value => {| search := value; page := page st; pageSize := pageSize st |}
  | PageSize value => {| search := search st; page := page st; pageSize := value |}
  | Previous =>
      {| search := search st; page := Z.max 1 (page st - 1); pageSize := pageSize st |}
  | Next =>
      {| search := search st;
         page := Z.min (pageCountOf transactions st) (page st + 1);
         pageSize := pageSize st |}
  | Goto pn => {| search := search st; page := pn; pageSize := pageSize st |}
  end.

(** [useEffect(() => { setPage(1); }, [search, pageSize])], run after the
    render that follows a handler: it fires when one of its dependencies
    differs from the render before. *)
Definition effect (before after : State) : State :=
  if (search before =? search after)%string && (pageSize before =? pageSize after)%Z
  then after
  else {| search := search after; page := 1; pageSize := pageSize after |}.

(** The state the component settles in after an event. *)
Definition step (transactions : list View.Transaction) (st : State) (ev : Event)
  : State :=
  effect st (handle transactions st ev).

(** The options of the page size select. *)
Definition pageSizeOptions : list Z := [5; 10; 15; 25; 50]%Z.

(** The events the rendered controls can produce in state [st]. *)
Definition enabled (transactions : list View.Transaction) (st : State) (ev : Event)
  : Prop :=
  match ev with
  | Search _ => True
  | PageSize value => In value pageSizeOptions
  | Previous => True
  | Next => True
  | Goto pn => In pn (pageButtons (pageCountOf transactions st) (page st))
  end.

(** The states the component can settle in. *)
Inductive reachable (transactions : list View.Transaction) : State -> Prop :=
| reachable_initial : reachable transactions initial
| reachable_step st ev :
    reachable transactions st -> enabled transactions st ev ->
    reachable transactions (step transactions st ev).

(** The text of the amount cell. *)
Definition amountText (amount : Q) : string :=
  if Qltb amount 0 then "-$" ++ toFixed2 (Qabs amount)
  else "$" ++ toFixed2 amount.

Definition isNull (v : option JSON) : bool :=
  match v with
  | Some JNull => true
  | _ => false
  end.

(** The text of a balance card:
    [balance !== null ? `$${balance.toFixed(2)}` : 'N/A'].  Only a number
    has [toFixed]. *)
Definition balanceText (balance : option JSON) : result string :=
  if isNull balance then Ok "N/A"
  else
    match balance with
    | Some (JNum x) => Ok ("$" ++ toFixed2 x)
    | _ => Throw TypeError
    end.

(** [s.split(',')]. *)
Fixpoint splitComma (s : string) : list string :=
  match s with
  | EmptyString => [EmptyString]
  | String c s' =>
      match splitComma s' with
      | part :: parts =>
          if Ascii.eqb c "," then EmptyString :: part :: parts
          else String c part :: parts
      | [] => []
      end
  end.

(** The lines of the address card, [None] standing for ['N/A']:
    [address ? address.split(',').map(part => part.trim()) : 'N/A'].
    Only a string has [split]. *)
Definition addressLines (address : option JSON) : result (option (list string)) :=
  if truthy address then
    match address with
    | Some (JStr s) => Ok (Some (map trim (splitComma s)))
    | _ => Throw TypeError
    end
  else Ok None.

Inductive Banner : Type :=
| Reconcile
| DoNotReconcile
| CouldNotBeConfirmed
| NoBanner.

(** The reconciliation banner the two conditional blocks come to. *)
Definition banner (reconciles startingBalance endingBalance : option JSON) : Banner :=
  if negb (isNull reconciles) then
    if truthy reconciles then Reconcile else DoNotReconcile
  else if negb (isNull startingBalance) && negb (isNull endingBalance)
       then CouldNotBeConfirmed
       else NoBanner.

(** What the component reads of a transaction the route sent. *)
Definition ofRoute (t : Transaction.t) : View.Transaction :=
  {| View.date := Transaction.date t;
     View.desc := Transaction.desc t;
     View.amount := Transaction.amount t |}.

End Controls.

(** ** Further properties *)

Module Props.

(** The four tests of the Normalizer as one: the entry is kept. *)
Definition keeps (tx : JSON) : bool :=
  (typeof (field tx "date") =? "string")
  && (typeof (field tx "description") =? "string")
  && negb (Qltb 0 (resolved tx "moneyIn") && Qltb 0 (resolved tx "moneyOut"))
  && negb (Qltb (resolved tx "moneyIn") 0 || Qltb (resolved tx "moneyOut") 0).

(** The transactions field is an array that holds a [null]. *)
Definition holdsNull (rawTransactions : option JSON) : Prop :=
  exists l, rawTransactions = Some (JArr l) /\ In JNull l.

(** The transaction of the earlier copy for an entry that is kept. *)
Definition emittedEarlier (tx : JSON) : Earlier.Transaction.t :=
  {| Earlier.Transaction.date := trim (stringOf (field tx "date"));
     Earlier.Transaction.desc :=
       (let d := trim (stringOf (field tx "description")) in
        if (d =? "")%string then "No Description"%string else d);
     Earlier.Transaction.amount :=
       if Qltb 0%Q (resolved tx "moneyIn") then resolved tx "moneyIn"
       else (- resolved tx "moneyOut")%Q |}.

(** A transaction of the current copy without its currency. *)
Definition withoutCurrency (t : Transaction.t) : Earlier.Transaction.t :=
  {| Earlier.Transaction.date := Transaction.date t;
     Earlier.Transaction.desc := Transaction.desc t;
     Earlier.Transaction.amount := Transaction.amount t |}.

(** The number of commas of a text. *)
Fixpoint commas (s : string) : nat :=
  match s with
  | EmptyString => 0
  | String c s' => (if Ascii.eqb c "," then 1 else 0) + commas s'
  end.

(** The verdict as the body of a response carries it. *)
Definition verdictJSON (reconciles : option bool) : option JSON :=
  Some match reconciles with
       | Some b => JBool b
       | None => JNull
       end.

End Props.

(** ** A session on the page *)

Module Session.

(** The page together with the runs of [handleSubmit] that wait for
    their response, each with the file it sent. *)
Record State : Type := {
  page : Home.State;
  pending : list Home.File;
}.

Definition initial : State := {| page := Home.initial; pending := [] |}.

(** What happens on the page: the user chooses or drops a file (or
    nothing), clears the file, submits the form; the response to a
    pending request arrives. *)
Inductive Action : Type :=
| Choose (selectedFile : option Home.File)
| Clear
| Submit
| Settle (request : nat).

(** The form is taken to be submitted whenever the user asks, also while
    a request is pending: the handler itself tests the file only. *)
Definition act (fetch : Home.File -> Home.Fetched) (s : State) (a : Action) : State :=
  match a with
  | Choose selectedFile =>
      {| page := Home.handleFileChange selectedFile (page s); pending := pending s |}
  | Clear =>
      {| page := Home.clearFile (page s); pending := pending s |}
  | Submit =>
      match Home.file (page s) with
      | None => s
      | Some f => {| page := Home.submitBegin (page s); pending := pending s ++ [f] |}
      end
  | Settle request =>
      match pending s !! request with
      | None => s
      | Some f =>
          {| page := Home.submitSettle (fetch f) (page s);
             pending := delete request (pending s) |}
      end
  end.

(** The states of the page between two events. *)
Inductive reachable (fetch : Home.File -> Home.Fetched) : State -> Prop :=
| reachable_initial : reachable fetch initial
| reachable_act s a : reachable fetch s -> reachable fetch (act fetch s a).

(** The states a list of events leads to. *)
Definition run (fetch : Home.File -> Home.Fetched) (actions : list Action) : State :=
  fold_left (act fetch) actions initial.

End Session.

(** ** More sample data *)

Module Cases.

(** A PDF chosen on the page. *)
Definition pdf : Home.File :=
  {| Home.name := "march.pdf"; Home.type := "application/pdf"; Home.bytes := "%PDF" |}.

Definition chosen : Home.State :=
  {| Home.file := Some pdf; Home.result := None; Home.loading := false;
     Home.error := None |}.

(** A [pdfParse] that reads a text, a [JSON.parse] that rejects every
    text, one that reads an empty object, and a completion that
    replies. *)
Definition readsText (bytes : string) : Upload.Awaited string :=
  Upload.Resolved "Statement of account".

Definition rejects (text : string) : result JSON := Throw SyntaxError.

Definition readsObject (text : string) : result JSON := Ok (JObj ∅).

(** A [JSON.parse] that reads the number 5. *)
Definition readsNumber (text : string) : result JSON := Ok (JNum 5).

Definition replies (text : string) : result (option string) := Ok (Some "reply").

(** A server that answers every upload with an empty object, and the
    events of choosing the PDF and submitting the form. *)
Definition answers (f : Home.File) : Home.Fetched :=
  Home.Responded true (Ok (JObj ∅)).

Definition submitted : list Session.Action :=
  [Session.Choose (Some pdf); Session.Submit].

(** The Ledger of an empty object. *)
Definition bareDetails : StatementDetails.t :=
  {| StatementDetails.name := None;
     StatementDetails.address := None;
     StatementDetails.date := None;
     StatementDetails.startingBalance := None;
     StatementDetails.endingBalance := None;
     StatementDetails.transactions := [];
     StatementDetails.reconciles := None;
     StatementDetails.currency := Some (JStr "$");
     StatementDetails.error := None |}.

(** The Ledger of the earlier copy for an empty object. *)
Definition bareEarlier : Earlier.StatementDetails.t :=
  {| Earlier.StatementDetails.name := Some JNull;
     Earlier.StatementDetails.address := Some JNull;
     Earlier.StatementDetails.date := Some JNull;
     Earlier.StatementDetails.startingBalance := Some JNull;
     Earlier.StatementDetails.endingBalance := Some JNull;
     Earlier.StatementDetails.transactions := [];
     Earlier.StatementDetails.reconciles := None;
     Earlier.StatementDetails.error := None |}.

End Cases.

(** ** Facts about the built-ins *)

Section Numbers.

Local Open Scope Q_scope.

Lemma Qltb_lt (x y : Q) : Qltb x y = true <-> x < y.
Proof.
  unfold Qltb. rewrite negb_true_iff. split.
  - intros H. apply Qnot_le_lt. intros Hle.
    apply Qle_bool_iff in Hle. congruence.
  - intros H. destruct (Qle_bool y x) eqn:E; [|reflexivity].
    apply Qle_bool_iff in E. exfalso. exact (Qlt_not_le _ _ H E).
Qed.

Lemma Qltb_nlt (x y : Q) : Qltb x y = false <-> ~ x < y.
Proof.
  rewrite <- Qltb_lt. destruct (Qltb x y); split; congruence.
Qed.

Lemma Qltb_zero (x : Q) : x == 0 -> Qltb 0 x = false /\ Qltb x 0 = false.
Proof.
  intros H. split; apply Qltb_nlt; rewrite H; apply Qlt_irrefl.
Qed.

Lemma Qltb_pos (x : Q) : 0 < x -> Qltb 0 x = true /\ Qltb x 0 = false.
Proof.
  intros H. split; [now apply Qltb_lt|].
  apply Qltb_nlt. intros H'. exact (Qlt_irrefl _ (Qlt_trans _ _ _ H H')).
Qed.

End Numbers.

(** Settles the tests of a money field from its sign. *)
Ltac money_sign H :=
  lazymatch type of H with
  | (?x == 0)%Q =>
      let Ha := fresh "Hle" in let Hb := fresh "Hge" in
      destruct (Qltb_zero x H) as [Ha Hb]; rewrite ?Ha, ?Hb
  | (0 < ?x)%Q =>
      let Ha := fresh "Hlt" in let Hb := fresh "Hge" in
      destruct (Qltb_pos x H) as [Ha Hb]; rewrite ?Ha, ?Hb
  end.

Section Values.

Lemma typeof_string (v : option JSON) : (typeof v =? "string") = true <-> isString v.
Proof.
  unfold isString. split.
  - destruct v as [[]|]; simpl; try discriminate. eauto.
  - intros [s ->]. reflexivity.
Qed.


Lemma get_field (tx : JSON) (k : string) : tx <> JNull -> get tx k = Ok (field tx k).
Proof. destruct tx; intros H; try reflexivity. congruence. Qed.

Lemma resolved_numberOf (tx : JSON) (k : string) :
  (if typeof (field tx k) =? "number" then numberOf (field tx k) else 0%Q)
  = resolved tx k.
Proof. unfold resolved. destruct (field tx k) as [[]|]; reflexivity. Qed.

End Values.

(** ** The Normalizer *)

Section Normalizer.

Import Route.
Local Open Scope Q_scope.

(** On an entry other than [null] no property read throws, and the
    callback is a cascade of four tests. *)
Lemma normalizeEntry_cascade (currency : option JSON) (tx : JSON) :
  tx <> JNull ->
  normalizeEntry currency tx =
    if negb (typeof (field tx "date") =? "string")%string then Ok []
    else if negb (typeof (field tx "description") =? "string")%string then Ok []
    else if Qltb 0 (resolved tx "moneyIn") && Qltb 0 (resolved tx "moneyOut") then Ok []
    else if Qltb (resolved tx "moneyIn") 0 || Qltb (resolved tx "moneyOut") 0 then Ok []
    else Ok [emitted currency tx].
Proof.
  intros Hnull. unfold normalizeEntry.
  rewrite !(get_field tx _ Hnull). cbn [bind].
  destruct (negb (typeof (field tx "date") =? "string")%string); [reflexivity|].
  destruct (negb (typeof (field tx "description") =? "string")%string); [reflexivity|].
  rewrite !resolved_numberOf. reflexivity.
Qed.

Lemma normalizeEntry_null (currency : option JSON) :
  normalizeEntry currency JNull = Throw TypeError.
Proof. reflexivity. Qed.

(** An entry other than [null] never makes the callback throw. *)
Lemma normalizeEntry_total (currency : option JSON) (tx : JSON) :
  tx <> JNull ->
  normalizeEntry currency tx = Ok [] \/ normalizeEntry currency tx = Ok [emitted currency tx].
Proof.
  intros Hnull. rewrite (normalizeEntry_cascade _ _ Hnull).
  repeat match goal with |- context [if ?b then _ else _] => destruct b end; auto.
Qed.

Lemma dropCondition_tests (tx : JSON) :
  dropCondition tx <->
    negb (typeof (field tx "date") =? "string")%string = true
    \/ negb (typeof (field tx "description") =? "string")%string = true
    \/ Qltb 0 (resolved tx "moneyIn") && Qltb 0 (resolved tx "moneyOut") = true
    \/ Qltb (resolved tx "moneyIn") 0 || Qltb (resolved tx "moneyOut") 0 = true.
Proof.
  unfold dropCondition.
  rewrite !negb_true_iff, andb_true_iff, orb_true_iff, !Qltb_lt.
  rewrite <- !typeof_string.
  destruct (typeof (field tx "date") =? "string")%string,
           (typeof (field tx "description") =? "string")%string;
    intuition congruence.
Qed.

(** C1.  An entry other than [null] is dropped exactly when its date is
    not a string, or its description is not a string, or both money
    fields resolve to positive numbers, or one of them resolves to a
    negative number; every other entry yields exactly one transaction. *)
Theorem normalizeEntry_drops_iff (currency : option JSON) (tx : JSON) :
  tx <> JNull ->
  (normalizeEntry currency tx = Ok [] <-> dropCondition tx)
  /\ (~ dropCondition tx -> exists t, normalizeEntry currency tx = Ok [t]).
Proof.
  intros Hnull. rewrite (normalizeEntry_cascade _ _ Hnull), dropCondition_tests.
  destruct (negb (typeof (field tx "date") =? "string")%string);
    [split; [tauto | intros H; exfalso; apply H; auto]|].
  destruct (negb (typeof (field tx "description") =? "string")%string);
    [split; [tauto | intros H; exfalso; apply H; auto]|].
  destruct (Qltb 0 (resolved tx "moneyIn") && Qltb 0 (resolved tx "moneyOut"));
    [split; [tauto | intros H; exfalso; apply H; auto]|].
  destruct (Qltb (resolved tx "moneyIn") 0 || Qltb (resolved tx "moneyOut") 0);
    [split; [tauto | intros H; exfalso; apply H; auto]|].
  split; [|eauto].
  split; [discriminate|].
  intros [H|[H|[H|H]]]; discriminate.
Qed.

Lemma normalizeEntry_drops_iff_witness :
  Sample.both <> JNull
  /\ (normalizeEntry None Sample.both = Ok [] <-> dropCondition Sample.both)
  /\ Sample.coffee <> JNull
  /\ (~ dropCondition Sample.coffee ->
      exists t, normalizeEntry None Sample.coffee = Ok [t]).
Proof.
  split; [discriminate|].
  split; [apply (normalizeEntry_drops_iff None Sample.both); discriminate|].
  split; [discriminate|].
  apply (normalizeEntry_drops_iff None Sample.coffee); discriminate.
Defined.

(** C2.  The transaction of an entry that is kept has the amount
    [moneyIn] when that is positive and [- moneyOut] otherwise, the money
    fields being resolved to 0 when not numeric; so an entry with string
    date and description and money X > 0 in, 0 out is kept with amount X,
    one with 0 in, Y > 0 out with amount -Y, and one with 0 in and 0 out
    with amount 0. *)
Theorem normalizeEntry_amount (currency : option JSON) (tx : JSON) :
  (forall t, normalizeEntry currency tx = Ok [t] ->
     (0 < resolved tx "moneyIn" -> Transaction.amount t = resolved tx "moneyIn")
     /\ (~ 0 < resolved tx "moneyIn" ->
         Transaction.amount t = - resolved tx "moneyOut"))
  /\ (isString (field tx "date") -> isString (field tx "description") ->
      (0 < resolved tx "moneyIn" -> resolved tx "moneyOut" == 0 ->
       exists t, normalizeEntry currency tx = Ok [t]
                 /\ Transaction.amount t = resolved tx "moneyIn")
      /\ (resolved tx "moneyIn" == 0 -> 0 < resolved tx "moneyOut" ->
          exists t, normalizeEntry currency tx = Ok [t]
                    /\ Transaction.amount t = - resolved tx "moneyOut")
      /\ (resolved tx "moneyIn" == 0 -> resolved tx "moneyOut" == 0 ->
          exists t, normalizeEntry currency tx = Ok [t]
                    /\ Transaction.amount t == 0)).
Proof.
  split.
  - intros t Hkept.
    assert (Hnull : tx <> JNull) by (intros ->; discriminate).
    rewrite (normalizeEntry_cascade _ _ Hnull) in Hkept.
    repeat match type of Hkept with
           | (if ?b then _ else _) = _ => destruct b; [discriminate|]
           end.
    injection Hkept as <-. cbn [Transaction.amount emitted].
    split; intros H.
    + apply Qltb_lt in H. now rewrite H.
    + apply Qltb_nlt in H. now rewrite H.
  - intros Hdate Hdesc.
    assert (Hnull : tx <> JNull) by (intros ->; destruct Hdate; discriminate).
    rewrite (normalizeEntry_cascade _ _ Hnull).
    apply typeof_string in Hdate, Hdesc. rewrite Hdate, Hdesc. cbn [negb].
    split; [|split]; intros Hin Hout;
      money_sign Hin; money_sign Hout; cbn [andb orb];
      (eexists; split; [reflexivity|]); cbn [Transaction.amount emitted];
      money_sign Hin; try reflexivity.
    now rewrite Hout.
Qed.

Lemma normalizeEntry_amount_witness :
  normalizeEntry None Sample.coffee = Ok [Sample.coffeeTx]
  /\ Transaction.amount Sample.coffeeTx = - resolved Sample.coffee "moneyOut"
  /\ exists t, normalizeEntry None Sample.salary = Ok [t]
               /\ Transaction.amount t = resolved Sample.salary "moneyIn".
Proof.
  split; [vm_compute; reflexivity|].
  split.
  - apply (proj1 (normalizeEntry_amount None Sample.coffee) Sample.coffeeTx).
    + vm_compute; reflexivity.
    + vm_compute. discriminate.
  - apply (proj2 (normalizeEntry_amount None Sample.salary)).
    + exists "02-01-2024"%string. vm_compute; reflexivity.
    + exists "Salary"%string. vm_compute; reflexivity.
    + vm_compute; reflexivity.
    + vm_compute; reflexivity.
Defined.

End Normalizer.

(** ** Decimal text *)

Section Text.

Lemma append_nil (t : string) : "" ++ t = t.
Proof. reflexivity. Qed.

Lemma append_cons (c : ascii) (s t : string) : String c s ++ t = String c (s ++ t).
Proof. reflexivity. Qed.

Lemma append_empty (s : string) : s ++ "" = s.
Proof.
  induction s as [|c s IH]; [reflexivity|]. now rewrite append_cons, IH.
Qed.

Lemma append_assoc (a b c : string) : (a ++ b) ++ c = a ++ (b ++ c).
Proof.
  induction a as [|x a IH]; [reflexivity|]. now rewrite !append_cons, IH.
Qed.

Lemma strlen_append (a b : string) :
  String.length (a ++ b) = (String.length a + String.length b)%nat.
Proof.
  induction a as [|x a IH]; [reflexivity|].
  rewrite append_cons. cbn [String.length]. now rewrite IH.
Qed.

Lemma take_drop (n : nat) (s : string) : take n s ++ drop n s = s.
Proof.
  revert s. induction n as [|n IH]; intros [|c s]; try reflexivity.
  cbn [take drop]. now rewrite append_cons, IH.
Qed.

Lemma strlen_take (n : nat) (s : string) :
  (n <= String.length s)%nat -> String.length (take n s) = n.
Proof.
  revert s. induction n as [|n IH]; intros [|c s]; simpl; intros H; try lia.
  rewrite IH; lia.
Qed.

Lemma strlen_drop (n : nat) (s : string) :
  String.length (drop n s) = (String.length s - n)%nat.
Proof.
  revert s. induction n as [|n IH]; intros [|c s]; simpl; try lia.
  apply IH.
Qed.

Lemma strlen_repeatChar (c : ascii) (n : nat) : String.length (repeatChar c n) = n.
Proof. induction n; simpl; congruence. Qed.

End Text.

Section Decimal.

Local Open Scope Z_scope.

Lemma digitValue_digitChar (d : Z) : 0 <= d <= 9 -> digitValue (digitChar d) = Some d.
Proof.
  intros H.
  assert (E : d = 0 \/ d = 1 \/ d = 2 \/ d = 3 \/ d = 4 \/ d = 5 \/ d = 6
              \/ d = 7 \/ d = 8 \/ d = 9) by lia.
  repeat (destruct E as [->|E]; [reflexivity|]). now subst.
Qed.

Lemma allDigits_app (a b : string) : allDigits (a ++ b) = allDigits a && allDigits b.
Proof.
  induction a as [|c a IH]; [reflexivity|].
  rewrite append_cons. cbn [allDigits].
  destruct (digitValue c); [exact IH | reflexivity].
Qed.

Lemma horner_app (a b : string) (acc : Z) :
  allDigits a = true -> horner (a ++ b) acc = horner b (horner a acc).
Proof.
  revert acc. induction a as [|c a IH]; intros acc H; [reflexivity|].
  rewrite append_cons. cbn [allDigits horner] in *.
  destruct (digitValue c); [now apply IH | discriminate].
Qed.

Lemma horner_shift (b : string) (acc : Z) :
  allDigits b = true ->
  horner b acc = acc * 10 ^ Z.of_nat (String.length b) + horner b 0.
Proof.
  revert acc. induction b as [|c b IH]; intros acc H.
  - simpl. lia.
  - cbn [horner String.length allDigits] in *.
    destruct (digitValue c) as [d|]; [|discriminate].
    rewrite (IH (10 * acc + d) H), (IH (10 * 0 + d) H).
    rewrite Nat2Z.inj_succ, Z.pow_succ_r by lia. lia.
Qed.

Lemma readDigits_app (a rest : string) (acc : Z) (count : nat) :
  allDigits a = true ->
  readDigits (a ++ rest) acc count
  = readDigits rest (horner a acc) (count + String.length a).
Proof.
  revert acc count. induction a as [|c a IH]; intros acc count H.
  - rewrite append_nil. cbn [horner String.length]. now rewrite Nat.add_0_r.
  - rewrite append_cons. cbn [readDigits horner allDigits String.length] in *.
    destruct (digitValue c) as [d|]; [|discriminate].
    rewrite (IH _ _ H). f_equal. lia.
Qed.

Lemma horner_zeros (n : nat) (acc : Z) :
  allDigits (repeatChar "0" n) = true /\ horner (repeatChar "0" n) 0 = 0.
Proof.
  induction n as [|n [IH1 IH2]]; [now split|].
  split; [exact IH1 | exact IH2].
Qed.

(** The digits written by [digitsAcc] are decimal digits whose value is
    [n], when the fuel covers the binary size of [n]. *)
Lemma digitsAcc_spec (fuel : nat) (n : Z) (rest : string) :
  0 <= n < 2 ^ Z.of_nat fuel ->
  exists pre, digitsAcc fuel n rest = pre ++ rest
              /\ allDigits pre = true /\ horner pre 0 = n.
Proof.
  revert n rest. induction fuel as [|fuel IH]; intros n rest Hn.
  - exists EmptyString. simpl in *. repeat split; lia.
  - cbn [digitsAcc]. destruct (n <? 10) eqn:E.
    + apply Z.ltb_lt in E. rewrite Z.mod_small by lia.
      exists (String (digitChar n) EmptyString).
      rewrite append_cons, append_nil. cbn [allDigits horner].
      rewrite digitValue_digitChar by lia. repeat split; lia.
    + apply Z.ltb_ge in E.
      rewrite Nat2Z.inj_succ, Z.pow_succ_r in Hn by lia.
      destruct (IH (n / 10) (String (digitChar (n mod 10)) rest)) as (pre & Hpre & Hall & Hval).
      { split; [apply Z.div_pos; lia|].
        apply Z.div_lt_upper_bound; lia. }
      exists (pre ++ String (digitChar (n mod 10)) EmptyString).
      assert (Hd : digitValue (digitChar (n mod 10)) = Some (n mod 10))
        by (apply digitValue_digitChar; pose proof (Z.mod_pos_bound n 10); lia).
      rewrite Hpre, append_assoc. split; [reflexivity|]. split.
      * rewrite allDigits_app, Hall. cbn [allDigits]. now rewrite Hd.
      * rewrite horner_app by exact Hall. cbn [horner]. rewrite Hd, Hval.
        pose proof (Z.div_mod n 10). lia.
Qed.

Lemma digits_spec (n : Z) :
  0 <= n -> allDigits (digits n) = true /\ horner (digits n) 0 = n.
Proof.
  intros Hn. unfold digits.
  destruct (digitsAcc_spec (S (Z.to_nat (Z.log2 n))) n EmptyString) as (pre & Hpre & Hall & Hval).
  - split; [exact Hn|].
    rewrite Nat2Z.inj_succ, Z2Nat.id by apply Z.log2_nonneg.
    destruct (Z.eq_dec n 0) as [->|Hz]; [reflexivity|].
    apply Z.log2_spec. lia.
  - rewrite Hpre, append_empty. now split.
Qed.

End Decimal.

Section FixedPoint.

Local Open Scope Z_scope.

Lemma digit_char_cases (c : ascii) (d : Z) :
  digitValue c = Some d ->
  (c = "0" \/ c = "1" \/ c = "2" \/ c = "3" \/ c = "4" \/ c = "5" \/ c = "6"
   \/ c = "7" \/ c = "8" \/ c = "9")%char.
Proof.
  destruct c as [[] [] [] [] [] [] [] []]; cbv; intros H; try discriminate; tauto.
Qed.

Lemma digit_not_space (c : ascii) (d : Z) :
  digitValue c = Some d -> isWhiteSpace c = false.
Proof.
  intros H. apply digit_char_cases in H.
  repeat (destruct H as [->|H]; [reflexivity|]). now subst.
Qed.

Lemma digit_not_sign (c : ascii) (d : Z) (s : string) :
  digitValue c = Some d -> readSign (String c s) = (false, String c s).
Proof.
  intros H. apply digit_char_cases in H.
  repeat (destruct H as [->|H]; [reflexivity|]). now subst.
Qed.

(** The text [toFixed2] prints: a sign, at least one digit, a point and two
    digits, the digits being those of the rounded count of hundredths. *)
Lemma toFixed2_shape (x : Q) :
  exists a b,
    toFixed2 x = (if Qltb x 0 then "-" else "")%string ++ a ++ "." ++ b
    /\ allDigits a = true /\ allDigits b = true
    /\ (1 <= String.length a)%nat /\ String.length b = 2%nat
    /\ horner a 0 * 100 + horner b 0 = Qfloor (Qabs x * 100 + (1 # 2)).
Proof.
  unfold toFixed2.
  set (n := Qfloor (Qabs x * 100 + (1 # 2))).
  assert (Hn : 0 <= n).
  { change 0 with (Qfloor 0). apply Qfloor_resp_le.
    pose proof (Qabs_nonneg x) as Hx.
    apply Qle_trans with (Qabs x * 100)%Q.
    - apply Qmult_le_0_compat; [exact Hx | discriminate].
    - rewrite <- (Qplus_0_r (Qabs x * 100)) at 1.
      apply Qplus_le_r. discriminate. }
  destruct (digits_spec n Hn) as [Hall Hval].
  set (m := repeatChar "0" (3 - String.length (digits n)) ++ digits n).
  destruct (horner_zeros (3 - String.length (digits n)) 0) as [Hz1 Hz2].
  assert (Hm : allDigits m = true) by (unfold m; now rewrite allDigits_app, Hz1, Hall).
  assert (Hv : horner m 0 = n) by (unfold m; now rewrite horner_app, Hz2).
  assert (Hk : (3 <= String.length m)%nat)
    by (unfold m; rewrite strlen_append, strlen_repeatChar; lia).
  set (k := String.length m) in *.
  exists (take (k - 2) m), (drop (k - 2) m).
  pose proof (take_drop (k - 2) m) as Htd.
  rewrite <- Htd, allDigits_app in Hm. apply andb_true_iff in Hm as [Ha Hb].
  split; [reflexivity|].
  split; [exact Ha|]. split; [exact Hb|].
  split; [rewrite strlen_take; unfold k in *; lia|].
  split; [rewrite strlen_drop; unfold k in *; lia|].
  assert (Hsplit : horner (take (k - 2) m ++ drop (k - 2) m) 0 = n)
    by (rewrite Htd; exact Hv).
  rewrite horner_app in Hsplit by exact Ha.
  rewrite (horner_shift (drop (k - 2) m) _ Hb), strlen_drop in Hsplit.
  replace (String.length m - (k - 2))%nat with 2%nat in Hsplit
    by (unfold k in *; lia).
  exact Hsplit.
Qed.

Lemma parseFloat_fixed (neg : bool) (a b : string) :
  allDigits a = true -> allDigits b = true -> (1 <= String.length a)%nat ->
  parseFloat ((if neg then "-" else "")%string ++ a ++ "." ++ b)
  = Some (let m := (inject_Z (horner a 0)
                    + inject_Z (horner b 0) / pow10 (Z.of_nat (String.length b)))%Q in
          if neg then (- m)%Q else m).
Proof.
  intros Ha Hb Hlen.
  destruct a as [|c a']; [cbn in Hlen; lia|].
  pose proof Ha as Hc. cbn [allDigits] in Hc.
  destruct (digitValue c) as [d|] eqn:Ed; [|discriminate].
  assert (Hread : readDigits (String c a' ++ "." ++ b) 0 0
                  = (horner (String c a') 0, String.length (String c a'), "." ++ b)%string).
  { rewrite readDigits_app by exact Ha. reflexivity. }
  assert (Hfrac : readDigits b 0 0 = (horner b 0, String.length b, ""%string)).
  { rewrite <- (append_empty b) at 1. rewrite readDigits_app by exact Hb. reflexivity. }
  unfold parseFloat.
  assert (Hsign : readSign (trimStart ((if neg then "-" else "")%string ++ String c a' ++ "." ++ b))
                  = (neg, String c a' ++ "." ++ b)%string).
  { destruct neg.
    - reflexivity.
    - rewrite append_nil, append_cons. cbn [trimStart].
      rewrite (digit_not_space c d Ed). apply (digit_not_sign c d _ Ed). }
  rewrite Hsign, Hread. rewrite append_cons, append_nil. cbv beta iota.
  rewrite Hfrac. cbv beta iota.
  replace (String.length (String c a') + String.length b =? 0)%nat with false
    by (symmetry; apply Nat.eqb_neq; cbn [String.length]; lia).
  reflexivity.
Qed.

End FixedPoint.

(** ** The Reconciliation Engine *)

Section Reconciliation.

Import Route.
Local Open Scope Q_scope.

Lemma roundCents_abs (x : Q) :
  roundCents x
  = ((if Qltb x 0 then -1 else 1) * Qfloor (Qabs x * 100 + (1 # 2)))%Z.
Proof.
  unfold roundCents, Qltb. destruct (Qle_bool 0 x) eqn:E; cbn [negb].
  - apply Qle_bool_iff in E.
    rewrite (Qfloor_comp _ _ (Qplus_comp _ _ (Qmult_comp _ _ (Qabs_pos x E) _ _ (Qeq_refl 100))
                                          _ _ (Qeq_refl (1 # 2)))).
    lia.
  - assert (Hneg : x <= 0).
    { apply Qlt_le_weak, Qnot_le_lt. intros H. apply Qle_bool_iff in H. congruence. }
    unfold Qceiling.
    assert (Heq : - (x * 100 - (1 # 2)) == Qabs x * 100 + (1 # 2))
      by (rewrite (Qabs_neg x Hneg); ring).
    rewrite (Qfloor_comp _ _ Heq). lia.
Qed.

Lemma roundCents_comp (x y : Q) : x == y -> roundCents x = roundCents y.
Proof.
  intros H. unfold roundCents.
  assert (E : Qle_bool 0 x = Qle_bool 0 y).
  { destruct (Qle_bool 0 x) eqn:Ex, (Qle_bool 0 y) eqn:Ey; try reflexivity.
    - apply Qle_bool_iff in Ex. rewrite H in Ex. apply Qle_bool_iff in Ex. congruence.
    - apply Qle_bool_iff in Ey. rewrite <- H in Ey. apply Qle_bool_iff in Ey. congruence. }
  rewrite E. destruct (Qle_bool 0 y).
  - apply Qfloor_comp. now rewrite H.
  - apply Qceiling_comp. now rewrite H.
Qed.

(** Printing a number with two decimals and reading the text back gives
    the number rounded to hundredths. *)
Lemma parseFloat_toFixed2 (x : Q) :
  exists v, parseFloat (toFixed2 x) = Some v /\ v == inject_Z (roundCents x) / 100.
Proof.
  destruct (toFixed2_shape x) as (a & b & Htext & Ha & Hb & Hla & Hlb & Hval).
  rewrite Htext, (parseFloat_fixed _ a b Ha Hb Hla), Hlb.
  eexists; split; [reflexivity|].
  rewrite roundCents_abs, <- Hval.
  change (pow10 (Z.of_nat 2)) with (100 # 1).
  destruct (Qltb x 0); cbv zeta.
  - rewrite inject_Z_mult, inject_Z_plus, inject_Z_mult.
    change (inject_Z (-1)) with (- (1))%Q. change (inject_Z 100) with 100.
    field.
  - rewrite inject_Z_mult, inject_Z_plus, inject_Z_mult.
    change (inject_Z 1) with 1. change (inject_Z 100) with 100.
    field.
Qed.

Lemma hundredths_inj (m n : Z) : inject_Z m / 100 == inject_Z n / 100 <-> m = n.
Proof.
  split; [|now intros ->].
  intros H. apply (Qmult_inj_r _ _ (/ 100)) in H; [|discriminate].
  unfold Qeq in H. simpl in H. lia.
Qed.

(** The accumulator of [reduce] is the sum of the amounts taken in
    order. *)
Lemma fold_left_amounts (transactions : list Transaction.t) (acc : Q) :
  fold_left (fun acc t => Number_add acc (Transaction.amount t)) transactions acc
  = fold_left Number_add (map Transaction.amount transactions) acc.
Proof.
  revert acc. induction transactions as [|t l IH]; intros acc; simpl.
  - reflexivity.
  - apply IH.
Qed.

Lemma sumTx_total (transactions : list Transaction.t) :
  sumTx transactions = total transactions.
Proof. apply fold_left_amounts. Qed.

(** The verdict on two numeric balances, through the text. *)
Lemma reconciles_numbers (s e : Q) (transactions : list Transaction.t) :
  reconciles (Some (JNum s)) (Some (JNum e)) transactions
  = Some (bool_decide (roundCents (Number_add s (total transactions)) = roundCents e)).
Proof.
  unfold reconciles. cbn [typeof String.eqb andb numberOf].
  change ("number" =? "number")%string with true. cbn [andb]. f_equal.
  rewrite sumTx_total.
  destruct (parseFloat_toFixed2 (Number_add s (total transactions))) as (v1 & -> & Hv1).
  destruct (parseFloat_toFixed2 e) as (v2 & -> & Hv2).
  cbn [strictEqNumber].
  destruct (Qeq_bool v1 v2) eqn:E.
  - apply Qeq_bool_iff in E. rewrite Hv1, Hv2 in E.
    apply (proj1 (hundredths_inj _ _)) in E. symmetry. apply bool_decide_eq_true_2. exact E.
  - symmetry. apply bool_decide_eq_false_2. intros Heq.
    assert (Hq : Qeq_bool v1 v2 = true)
      by (apply Qeq_bool_iff; rewrite Hv1, Hv2, Heq; reflexivity).
    congruence.
Qed.



(** The reconciliation examples of the specification: 100.00 with
    transactions summing to -25.00 reconciles with 75.00 and not with
    80.00. *)
Example reconciles_examples :
  let spent := {| Transaction.date := "03-01-2024"; Transaction.desc := "Rent";
                  Transaction.amount := - (2150 # 100);
                  Transaction.currency := JStr "GBP" |} in
  reconciles (Some (JNum 100)) (Some (JNum 75)) [Sample.coffeeTx; spent] = Some true
  /\ reconciles (Some (JNum 100)) (Some (JNum 80)) [Sample.coffeeTx; spent] = Some false
  /\ reconciles (Some JNull) (Some (JNum 75)) [Sample.coffeeTx; spent] = None.
Proof. repeat split; vm_compute; reflexivity. Qed.

(** Additions of doubles: 0.1 + 0.2 is the double above 0.3, a tie goes
    to the even mantissa (2^53 + 1 is 2^53 and 2^53 + 3 is 2^53 + 4), and
    a sum is not associative. *)
Example Number_add_examples :
  Number_add (roundToDouble (1 # 10)) (roundToDouble (2 # 10))
  = 1351079888211149 # 4503599627370496
  /\ Number_add 9007199254740992 1 = 9007199254740992
  /\ Number_add 9007199254740992 3 = 9007199254740996
  /\ Number_add (Number_add Sample.e16 1) (- Sample.e16) = 0
  /\ Number_add (Number_add Sample.e16 (- Sample.e16)) 1 = 1.
Proof. repeat split; vm_compute; reflexivity. Qed.

(** The verdict follows the rounded sums.  With 100 as starting balance,
    one credit of 0.015 and 100.02 as ending balance (the doubles nearest
    to these), the sum 100 + 0.015 is the double just above 100.015 and
    the verdict is [true], although the three numbers added as rationals
    fall short of 100.015.  With the amounts 1e16, 1 and -1e16 the sum is
    0, not 1. *)
Example reconciles_rounded_sums :
  reconciles (Some (JNum 100)) (Some (JNum Sample.ending)) [Sample.credit] = Some true
  /\ roundCents (Number_add 100 (total [Sample.credit])) = 10002%Z
  /\ roundCents (100 + exactTotal [Sample.credit]) = 10001%Z
  /\ roundCents Sample.ending = 10002%Z
  /\ total Sample.cancelling = 0
  /\ exactTotal Sample.cancelling == 1
  /\ reconciles (Some (JNum 0)) (Some (JNum 0)) Sample.cancelling = Some true
  /\ reconciles (Some (JNum 0)) (Some (JNum 1)) Sample.cancelling = Some false.
Proof. repeat split; vm_compute; reflexivity. Qed.

End Reconciliation.

(** ** The fields of an emitted transaction *)

Section Fields.

Import Route.

Lemma trimStart_first (s : string) (c : ascii) :
  firstChar (trimStart s) = Some c -> isWhiteSpace c = false.
Proof.
  induction s as [|x s IH]; cbn [trimStart]; [discriminate|].
  destruct (isWhiteSpace x) eqn:E; [exact IH|].
  cbn [firstChar]. now intros [= <-].
Qed.

Lemma trimEnd_first (s : string) (c : ascii) :
  firstChar (trimEnd s) = Some c -> firstChar s = Some c.
Proof.
  destruct s as [|x s]; cbn [trimEnd]; [discriminate|].
  destruct (trimEnd s); [destruct (isWhiteSpace x)|]; cbn [firstChar];
    congruence.
Qed.

Lemma trimEnd_last (s : string) (c : ascii) :
  lastChar (trimEnd s) = Some c -> isWhiteSpace c = false.
Proof.
  induction s as [|x s IH]; cbn [trimEnd]; [discriminate|].
  destruct (trimEnd s) as [|y r] eqn:E.
  - destruct (isWhiteSpace x) eqn:Ex; cbn [lastChar]; [discriminate|].
    now intros [= <-].
  - cbn [lastChar]. exact IH.
Qed.

(** What [trim] returns has no surrounding white space. *)
Lemma trim_trimmed (s : string) : trimmed (trim s).
Proof.
  unfold trim. split; intros c H.
  - apply trimEnd_first in H. exact (trimStart_first _ _ H).
  - exact (trimEnd_last _ _ H).
Qed.

Lemma trimStart_id (s : string) :
  (forall c, firstChar s = Some c -> isWhiteSpace c = false) -> trimStart s = s.
Proof.
  destruct s as [|x s]; [reflexivity|]. intros H. cbn [trimStart].
  now rewrite (H x eq_refl).
Qed.

Lemma trimEnd_id (s : string) :
  (forall c, lastChar s = Some c -> isWhiteSpace c = false) -> trimEnd s = s.
Proof.
  induction s as [|x s IH]; [reflexivity|]. intros H. cbn [trimEnd].
  destruct s as [|y s'].
  - cbn [trimEnd]. now rewrite (H x eq_refl).
  - rewrite IH by exact H. reflexivity.
Qed.

(** A text with no surrounding white space is left as it is by [trim]. *)
Lemma trim_id (s : string) : trimmed s -> trim s = s.
Proof.
  intros [H1 H2]. unfold trim. rewrite (trimStart_id s H1). exact (trimEnd_id s H2).
Qed.

Lemma placeholder_trimmed : trimmed "No Description".
Proof. split; intros c [= <-]; reflexivity. Qed.

(** The claim of C4 fails on an entry with a blank date: it is kept, and
    the date of its transaction is empty. *)
Lemma canonicalFields_counterexample :
  normalizeEntry None Sample.undated = Ok [Sample.undatedTx]
  /\ ~ canonicalFields Sample.undatedTx.
Proof.
  split; [vm_compute; reflexivity|].
  intros [Hdate _]. now apply Hdate.
Qed.

(** C4, amended.  The transaction of an entry that is kept has as date the
    entry's date trimmed, which has no surrounding white space and may be
    empty; as description a non-empty text with no surrounding white space,
    the entry's description trimmed or ["No Description"] when that is
    empty; and as currency the entry's currency when that is a string,
    empty or not, else the statement's currency when that is truthy, else
    ["$"]. *)
Theorem emitted_fields (currency : option JSON) (tx : JSON) (t : Transaction.t) :
  normalizeEntry currency tx = Ok [t] ->
  (Transaction.date t = trim (stringOf (field tx "date"))
   /\ trimmed (Transaction.date t))
  /\ (Transaction.desc t <> "" /\ trimmed (Transaction.desc t)
      /\ (trim (stringOf (field tx "description")) <> "" ->
          Transaction.desc t = trim (stringOf (field tx "description")))
      /\ (trim (stringOf (field tx "description")) = "" ->
          Transaction.desc t = "No Description"))
  /\ ((forall c, field tx "currency" = Some (JStr c) -> Transaction.currency t = JStr c)
      /\ (~ isString (field tx "currency") -> truthy currency = true ->
          Some (Transaction.currency t) = currency)
      /\ (~ isString (field tx "currency") -> truthy currency = false ->
          Transaction.currency t = JStr "$")).
Proof.
  intros Hkept.
  assert (Hnull : tx <> JNull) by (intros ->; discriminate).
  destruct (normalizeEntry_total currency tx Hnull) as [H|H];
    rewrite H in Hkept; [discriminate|].
  injection Hkept as <-. cbn [emitted Transaction.date Transaction.desc Transaction.currency].
  split; [split; [reflexivity | apply trim_trimmed]|].
  split.
  - destruct (trim (stringOf (field tx "description")) =? "")%string eqn:E.
    + apply String.eqb_eq in E. rewrite E.
      split; [discriminate|]. split; [exact placeholder_trimmed|].
      split; [congruence | reflexivity].
    + apply String.eqb_neq in E.
      repeat split; try exact E; try congruence; apply trim_trimmed.
  - split; [|split].
    + intros c ->. reflexivity.
    + intros Hs Ht.
      destruct (typeof (field tx "currency") =? "string")%string eqn:E;
        [apply typeof_string in E; contradiction|].
      unfold orElse. rewrite Ht. destruct currency; [reflexivity | discriminate].
    + intros Hs Ht.
      destruct (typeof (field tx "currency") =? "string")%string eqn:E;
        [apply typeof_string in E; contradiction|].
      unfold orElse. rewrite Ht. destruct currency; reflexivity.
Qed.

Lemma emitted_fields_witness :
  normalizeEntry None Sample.undated = Ok [Sample.undatedTx]
  /\ Transaction.date Sample.undatedTx = trim (stringOf (field Sample.undated "date"))
  /\ Transaction.desc Sample.undatedTx <> "".
Proof.
  assert (H : normalizeEntry None Sample.undated = Ok [Sample.undatedTx])
    by (vm_compute; reflexivity).
  split; [exact H|].
  pose proof (emitted_fields None Sample.undated Sample.undatedTx H) as [[Hd _] [[Hn _] _]].
  split; [exact Hd | exact Hn].
Defined.

End Fields.

(** ** The Normalizer on a whole list *)

Section Entries.

Import Route.
Local Open Scope Q_scope.

(** A list without [null] is normalised entry by entry, none throwing. *)
Lemma flatMap_total (currency : option JSON) (l : list JSON) :
  Forall (fun tx => tx <> JNull) l ->
  exists out, flatMap (normalizeEntry currency) l = Ok out.
Proof.
  induction 1 as [|tx l Htx _ [out IH]]; [now exists []|].
  cbn [flatMap]. rewrite IH.
  destruct (normalizeEntry_total currency tx Htx) as [-> | ->]; cbn [bind]; eauto.
Qed.

(** A [null] anywhere in the list makes the whole call throw. *)
Lemma flatMap_null (currency : option JSON) (l : list JSON) :
  In JNull l -> exists e, flatMap (normalizeEntry currency) l = Throw e.
Proof.
  induction l as [|tx l IH]; intros Hin; [destruct Hin|].
  cbn [flatMap]. destruct (normalizeEntry currency tx) as [ys|e] eqn:E;
    cbn [bind]; [|eauto].
  destruct Hin as [->|Hin]; [discriminate|].
  destruct (IH Hin) as [e ->]. cbn [bind]. eauto.
Qed.

(** C5, at the failing input.  A list holding one good entry and [null]:
    the callback throws on [null], [flatMap] throws with it, and the
    request ends in the [catch] clause, the good entry lost. *)
Theorem null_entry_fails_request :
  normalizeEntry None JNull = Throw TypeError
  /\ normalizeTransactions None (Some (JArr [Sample.coffee; JNull])) = Throw TypeError
  /\ extractStatementDetails Sample.parseHoled (Ok (Some "reply")) = failure.
Proof. repeat split; vm_compute; reflexivity. Qed.

Lemma canonicalEntry_kept (currency : option JSON) (tx : JSON) :
  canonicalEntry tx ->
  normalizeEntry currency tx = Ok [emitted currency tx]
  /\ sameFields tx (emitted currency tx).
Proof.
  intros ((d & Hd & Hde & Hdt) & (ds & Hds & Hdse & Hdst) & [c Hc] & Hin & Hout & Hone).
  assert (Hnull : tx <> JNull) by (intros ->; discriminate).
  split.
  - rewrite (normalizeEntry_cascade _ _ Hnull), Hd, Hds. cbn [typeof].
    change ("string" =? "string")%string with true. cbn [negb].
    assert (E1 : Qltb 0 (resolved tx "moneyIn") && Qltb 0 (resolved tx "moneyOut") = false).
    { destruct (Qltb 0 (resolved tx "moneyIn")) eqn:Ea,
               (Qltb 0 (resolved tx "moneyOut")) eqn:Eb; try reflexivity.
      exfalso. apply Hone. split; now apply Qltb_lt. }
    assert (E2 : Qltb (resolved tx "moneyIn") 0 || Qltb (resolved tx "moneyOut") 0 = false).
    { apply orb_false_iff. split; apply Qltb_nlt; intros H.
      - exact (Qlt_not_le _ _ H Hin).
      - exact (Qlt_not_le _ _ H Hout). }
    now rewrite E1, E2.
  - unfold sameFields, emitted.
    cbn [Transaction.date Transaction.desc Transaction.amount Transaction.currency].
    rewrite Hd, Hds, Hc. cbn [stringOf typeof].
    rewrite (trim_id d Hdt), (trim_id ds Hdst).
    apply String.eqb_neq in Hdse. rewrite Hdse.
    change ("string" =? "string")%string with true. cbv iota.
    repeat split.
    + intros H. apply Qltb_lt in H. now rewrite H.
    + intros H. apply Qltb_nlt in H. now rewrite H.
Qed.

Lemma salary_canonical : Forall canonicalEntry [Sample.salary].
Proof.
  constructor; [|constructor].
  split; [exists "02-01-2024"%string|split; [exists "Salary"%string|]].
  - split; [vm_compute; reflexivity|]. split; [discriminate|].
    split; intros c [= <-]; reflexivity.
  - split; [vm_compute; reflexivity|]. split; [discriminate|].
    split; intros c [= <-]; reflexivity.
  - split; [exists "GBP"%string; vm_compute; reflexivity|].
    split; [vm_compute; discriminate|].
    split; [vm_compute; discriminate|].
    intros [_ H]. vm_compute in H. discriminate.
Qed.

(** The claim of C10 fails on a list of one canonical entry: what comes out
    has the shape of a transaction ([desc], [amount]), not of the entry
    ([description], [moneyIn], [moneyOut]), and fed to the Normalizer
    again it is dropped. *)
Lemma normalize_not_identity :
  Forall canonicalEntry [Sample.salary]
  /\ normalizeTransactions None (Some (JArr [Sample.salary])) = Ok [Sample.salaryTx]
  /\ map transactionJSON [Sample.salaryTx] <> [Sample.salary]
  /\ normalizeTransactions None (Some (JArr (map transactionJSON [Sample.salaryTx])))
     = Ok [].
Proof.
  split; [exact salary_canonical|]. split; [|split].
  - vm_compute; reflexivity.
  - intros H.
    apply (f_equal (fun l => match l with
                             | [v] => field v "description"
                             | _ => None
                             end)) in H.
    vm_compute in H. discriminate.
  - vm_compute; reflexivity.
Qed.

(** C10, amended.  Normalising a list of canonical entries keeps every
    entry, in the order of the list: there is one transaction per entry,
    with the entry's date, description and currency unchanged and with the
    amount [moneyIn] when positive, [- moneyOut] otherwise. *)
Theorem normalize_canonical (currency : option JSON) (l : list JSON) :
  Forall canonicalEntry l ->
  exists out,
    normalizeTransactions currency (Some (JArr l)) = Ok out
    /\ Forall2 sameFields l out.
Proof.
  unfold normalizeTransactions. cbn [Array_isArray elementsOf].
  induction 1 as [|tx l Htx _ (out & IH & Hall)].
  - exists []. split; [reflexivity | constructor].
  - destruct (canonicalEntry_kept currency tx Htx) as [Hk Hs].
    exists (emitted currency tx :: out). cbn [flatMap].
    rewrite Hk, IH. cbn [bind]. split; [reflexivity|].
    constructor; assumption.
Qed.

Lemma normalize_canonical_witness :
  Forall canonicalEntry [Sample.salary]
  /\ exists out,
       normalizeTransactions None (Some (JArr [Sample.salary])) = Ok out
       /\ Forall2 sameFields [Sample.salary] out.
Proof.
  split; [exact salary_canonical|].
  exact (normalize_canonical None [Sample.salary] salary_canonical).
Defined.

End Entries.

(** ** The Statement Assembler *)

Section Assembler.

Import Route.

Variable JSON_parse : string -> result JSON.

Lemma extract_failure (reply : result (option string)) (e : exn) :
  tryBlock JSON_parse reply = Throw e ->
  extractStatementDetails JSON_parse reply = failure.
Proof. unfold extractStatementDetails. now intros ->. Qed.

Lemma assemble_error (parsed : JSON) (d : StatementDetails.t) :
  assemble parsed = Ok d -> StatementDetails.error d = None.
Proof.
  unfold assemble.
  destruct (get parsed "name") as [name|]; [|discriminate].
  destruct (get parsed "address") as [address|]; [|discriminate].
  destruct (get parsed "date") as [date|]; [|discriminate].
  destruct (get parsed "startingBalance") as [sb|]; [|discriminate].
  destruct (get parsed "endingBalance") as [eb|]; [|discriminate].
  destruct (get parsed "transactions") as [raw|]; [|discriminate].
  destruct (get parsed "currency") as [cur|]; [|discriminate].
  cbn [bind]. destruct (normalizeTransactions cur raw); [|discriminate].
  cbn [bind]. now intros [= <-].
Qed.

(** The Ledger of a parsed value that is neither [null] nor an object:
    every field it is asked for is [undefined]. *)
Lemma assemble_not_object (parsed : JSON) :
  parsed <> JNull -> ~ isObject parsed -> assemble parsed = Ok Cases.bareDetails.
Proof.
  intros Hnull Hobj.
  destruct parsed; try reflexivity; [congruence|].
  exfalso. apply Hobj. eexists; reflexivity.
Qed.

End Assembler.

(** The claim of C6 fails on a reply that is JSON but not an object.  The
    text [5] parses to a number; the destructuring reads [undefined] for
    every field, nothing throws, and the result carries no error: its
    headers and balances are [undefined], not [null]. *)
Lemma unstructured_reply_accepted :
  unstructured Cases.readsNumber (Ok (Some "5"))
  /\ Route.extractStatementDetails Cases.readsNumber (Ok (Some "5")) = Cases.bareDetails
  /\ StatementDetails.error Cases.bareDetails = None
  /\ ~ errorWithDefaults (Route.extractStatementDetails Cases.readsNumber (Ok (Some "5"))).
Proof.
  split; [|split; [reflexivity | split; [reflexivity|]]].
  - right. right. exists "5". split; [reflexivity|]. right.
    exists (JNum 5). split; [reflexivity|]. intros [m H]. discriminate.
  - intros [H _]. apply H. reflexivity.
Qed.

Section AssemblerAmended.

Import Route.
Variable JSON_parse : string -> result JSON.

(** C6, amended.  When the content of the reply is [null] or empty, when
    [JSON.parse] throws on it, or when it parses to [null], the result is
    the value of the [catch] clause: an error text and a Ledger of
    defaults, with null headers and balances, no transaction and a null
    verdict.  A result with an error is never anything else.  A reply
    that parses to a value that is neither [null] nor an object (a
    number, a string, a boolean, an array) is no error: the result is the
    Ledger of an empty object, with undefined headers and balances, no
    transaction, a null verdict and the currency ["$"]. *)
Theorem failure_defaults (reply : result (option string)) :
  let d := extractStatementDetails JSON_parse reply in
  ((reply = Ok None
    \/ reply = Ok (Some "")
    \/ (exists text e, reply = Ok (Some text) /\ JSON_parse text = Throw e)
    \/ (exists text, reply = Ok (Some text) /\ JSON_parse text = Ok JNull)) ->
   StatementDetails.error d = Some "Failed to extract statement details"
   /\ StatementDetails.name d = Some JNull
   /\ StatementDetails.address d = Some JNull
   /\ StatementDetails.date d = Some JNull
   /\ StatementDetails.startingBalance d = Some JNull
   /\ StatementDetails.endingBalance d = Some JNull
   /\ StatementDetails.transactions d = []
   /\ StatementDetails.reconciles d = None)
  /\ (StatementDetails.error d <> None -> d = failure)
  /\ (forall text parsed,
        reply = Ok (Some text) -> text <> "" -> JSON_parse text = Ok parsed ->
        parsed <> JNull -> ~ isObject parsed ->
        d = Cases.bareDetails
        /\ StatementDetails.error d = None
        /\ StatementDetails.name d = None
        /\ StatementDetails.startingBalance d = None
        /\ StatementDetails.endingBalance d = None).
Proof.
  cbv zeta. split; [|split].
  - intros Hcase.
    assert (H : exists e, tryBlock JSON_parse reply = Throw e).
    { destruct Hcase as [-> | [-> | [(text & e & -> & Hp) | (text & -> & Hp)]]].
      - eexists; reflexivity.
      - eexists; reflexivity.
      - cbn [tryBlock bind]. destruct (text =? "")%string; [eexists; reflexivity|].
        rewrite Hp. eexists; reflexivity.
      - cbn [tryBlock bind]. destruct (text =? "")%string; [eexists; reflexivity|].
        rewrite Hp. eexists; reflexivity. }
    destruct H as [e H]. rewrite (extract_failure _ _ _ H).
    repeat split.
  - intros Herr. unfold extractStatementDetails in *.
    destruct (tryBlock JSON_parse reply) as [d'|e] eqn:E; [|reflexivity].
    exfalso. apply Herr. clear Herr.
    unfold tryBlock in E. destruct reply as [[text|]|]; cbn [bind] in E; try discriminate.
    destruct (text =? "")%string; [discriminate|].
    destruct (JSON_parse text) as [parsed|]; cbn [bind] in E; [|discriminate].
    exact (assemble_error parsed d' E).
  - intros text parsed -> Htext Hp Hnull Hobj.
    unfold extractStatementDetails, tryBlock. cbn [bind].
    apply String.eqb_neq in Htext. rewrite Htext, Hp. cbn [bind].
    rewrite (assemble_not_object parsed Hnull Hobj).
    repeat split.
Qed.

End AssemblerAmended.

Lemma failure_defaults_witness :
  StatementDetails.error (Route.extractStatementDetails Cases.rejects (Ok (Some "not json")))
  = Some "Failed to extract statement details"
  /\ StatementDetails.transactions (Route.extractStatementDetails Cases.rejects (Ok None)) = []
  /\ Route.extractStatementDetails Cases.readsNumber (Ok (Some "5")) = Cases.bareDetails.
Proof.
  split; [|split].
  - apply (proj1 (failure_defaults Cases.rejects (Ok (Some "not json")))).
    right. right. left. exists "not json"%string, SyntaxError. split; reflexivity.
  - apply (proj1 (failure_defaults Cases.rejects (Ok None))).
    left. reflexivity.
  - apply (proj2 (proj2 (failure_defaults Cases.readsNumber (Ok (Some "5")))) "5"%string (JNum 5));
      try reflexivity; try discriminate.
    intros [m H]. discriminate.
Defined.

Section Headers.

Import Route.

(** The claim of C9 fails on a statement whose name is a number: the
    number reaches the Ledger as it is. *)
Lemma headers_not_coerced :
  assemble Sample.mistyped = Ok Sample.mistypedDetails
  /\ ~ headersCoerced Sample.mistypedDetails.
Proof.
  split; [vm_compute; reflexivity|].
  intros [[H|H] _]; discriminate.
Qed.

(** C9, amended.  The [name], [address] and [date] of the Ledger are the
    values the parsed object has under these names, whatever their types,
    and [undefined] for a name the object does not have: none is replaced
    by [null].  A balance that is a number or [null] reaches the Ledger as
    it is. *)
Theorem headers_pass_through (parsed : JSON) (d : StatementDetails.t) :
  assemble parsed = Ok d ->
  StatementDetails.name d = field parsed "name"
  /\ StatementDetails.address d = field parsed "address"
  /\ StatementDetails.date d = field parsed "date"
  /\ (conforms "number" (field parsed "startingBalance") ->
      StatementDetails.startingBalance d = field parsed "startingBalance")
  /\ (conforms "number" (field parsed "endingBalance") ->
      StatementDetails.endingBalance d = field parsed "endingBalance").
Proof.
  intros H.
  assert (Hnull : parsed <> JNull) by (intros ->; discriminate).
  unfold assemble in H. rewrite !(get_field parsed _ Hnull) in H. cbn [bind] in H.
  destruct (normalizeTransactions _ _); [|discriminate].
  cbn [bind] in H. injection H as <-. repeat split.
Qed.

Lemma headers_pass_through_witness :
  assemble Sample.mistyped = Ok Sample.mistypedDetails
  /\ StatementDetails.name Sample.mistypedDetails = field Sample.mistyped "name"
  /\ StatementDetails.startingBalance Sample.mistypedDetails
     = field Sample.mistyped "startingBalance".
Proof.
  assert (H : assemble Sample.mistyped = Ok Sample.mistypedDetails)
    by (vm_compute; reflexivity).
  destruct (headers_pass_through Sample.mistyped Sample.mistypedDetails H)
    as (Hname & _ & _ & Hstart & _).
  split; [exact H|]. split; [exact Hname|].
  apply Hstart. right. reflexivity.
Defined.

End Headers.

(** ** The Query/View Filter *)

Section Search.

Lemma prefix_append (t s : string) :
  String.prefix t s = true <-> exists b, s = t ++ b.
Proof.
  revert s. induction t as [|x t IH]; intros s.
  - destruct s; (split; [intros _; eexists; reflexivity | reflexivity]).
  - destruct s as [|y s]; cbn [String.prefix].
    + split; [discriminate | intros [b H]; rewrite append_cons in H; discriminate].
    + destruct (ascii_dec x y) as [->|Hne].
      * rewrite IH. split; intros [b H]; exists b.
        -- now rewrite append_cons, H.
        -- rewrite append_cons in H. now injection H.
      * split; [discriminate|]. intros [b H]. rewrite append_cons in H.
        injection H as H1 _. congruence.
Qed.

(** [includes] decides the substring relation. *)
Lemma includes_occursIn (s t : string) : includes s t = true <-> occursIn t s.
Proof.
  unfold occursIn. induction s as [|c s IH]; cbn [includes].
  - rewrite orb_false_r, prefix_append. split.
    + intros [b H]. exists EmptyString, b. exact H.
    + intros (a & b & H). destruct a; [now exists b|].
      rewrite append_cons in H. discriminate.
  - rewrite orb_true_iff, prefix_append, IH. split.
    + intros [[b H] | (a & b & H)].
      * exists EmptyString, b. exact H.
      * exists (String c a), b. now rewrite append_cons, H.
    + intros (a & b & H). destruct a as [|x a].
      * left. now exists b.
      * right. rewrite append_cons in H. injection H as _ H. now exists a, b.
Qed.

Lemma includes_empty (s : string) : includes s "" = true.
Proof. destruct s; reflexivity. Qed.

Lemma matches_kept (search : string) (tx : View.Transaction) :
  View.matches (toLowerCase (trim search)) tx = true <-> kept search tx.
Proof.
  unfold View.matches, kept. cbv zeta.
  rewrite !orb_true_iff, !includes_occursIn. tauto.
Qed.

Lemma filter_all {A : Type} (f : A -> bool) (l : list A) :
  (forall x, f x = true) -> List.filter f l = l.
Proof.
  intros H. induction l as [|x l IH]; [reflexivity|].
  cbn [List.filter]. now rewrite H, IH.
Qed.

(** C7.  The filter keeps the transactions for which the search term,
    trimmed and in lower case, is a substring of the date in lower case,
    of the description in lower case or of the amount printed with 2
    decimals, and it keeps them in their order; an empty or blank term
    keeps them all; an amount of -3.5 is found by ["3.50"] and by
    ["-3.50"]. *)
Theorem filteredTransactions_spec (search : string) (transactions : list View.Transaction) :
  (exists keep : View.Transaction -> bool,
     (forall tx, keep tx = true <-> kept search tx)
     /\ View.filteredTransactions search transactions = List.filter keep transactions)
  /\ (forall tx, In tx (View.filteredTransactions search transactions)
                 <-> In tx transactions /\ kept search tx)
  /\ (trim search = "" -> View.filteredTransactions search transactions = transactions)
  /\ (forall date desc : string,
        kept "3.50" {| View.date := date; View.desc := desc; View.amount := - (35 # 10) |}
        /\ kept "-3.50" {| View.date := date; View.desc := desc; View.amount := - (35 # 10) |}).
Proof.
  assert (Hfilter : View.filteredTransactions search transactions
                    = List.filter (View.matches (toLowerCase (trim search))) transactions).
  { unfold View.filteredTransactions.
    destruct (toLowerCase (trim search) =? "")%string eqn:E; [|reflexivity].
    apply String.eqb_eq in E. rewrite E. symmetry. apply filter_all.
    intros tx. unfold View.matches. now rewrite !includes_empty. }
  split; [|split; [|split]].
  - exists (View.matches (toLowerCase (trim search))).
    split; [intros tx; apply matches_kept | exact Hfilter].
  - intros tx. rewrite Hfilter, filter_In, matches_kept. reflexivity.
  - intros H. unfold View.filteredTransactions. now rewrite H.
  - intros date desc. split; right; right; cbn [View.amount].
    + exists "-"%string, ""%string. reflexivity.
    + exists ""%string, ""%string. reflexivity.
Qed.

Lemma filteredTransactions_spec_witness :
  trim "  " = ""
  /\ View.filteredTransactions "  " Sample.ledger = Sample.ledger.
Proof.
  split; [reflexivity|].
  apply (filteredTransactions_spec "  " Sample.ledger). reflexivity.
Defined.

(** The search example of the specification. *)
Example search_example :
  View.filteredTransactions "coffee" Sample.ledger = firstn 1 Sample.ledger
  /\ View.filteredTransactions "3.50" Sample.ledger = firstn 1 Sample.ledger
  /\ View.filteredTransactions "zzz" Sample.ledger = []
  /\ View.pageCount (View.filteredTransactions "zzz" Sample.ledger) 10 = 1%Z.
Proof. repeat split; vm_compute; reflexivity. Qed.

End Search.

Section Pagination.

Local Open Scope Z_scope.

Lemma Qceiling_quotient (n : Z) (p : positive) :
  Qceiling (inject_Z n / inject_Z (Zpos p)) = - ((- n) / Zpos p).
Proof.
  unfold Qceiling, Qfloor, Qdiv, Qmult, Qinv, Qopp, inject_Z. cbn.
  rewrite Z.mul_1_r. reflexivity.
Qed.

(** The quotient rounded up: the least count of pages of [pageSize] that
    hold [n] entries. *)
Lemma ceiling_bounds (n pageSize : Z) :
  0 < pageSize ->
  let c := Qceiling (inject_Z n / inject_Z pageSize) in
  (c - 1) * pageSize < n <= c * pageSize.
Proof.
  intros Hp. destruct pageSize as [|p|p]; try lia.
  cbv zeta. rewrite Qceiling_quotient.
  pose proof (Z.div_mod (- n) (Zpos p) ltac:(lia)) as Hdm.
  pose proof (Z.mod_pos_bound (- n) (Zpos p) ltac:(lia)) as Hb.
  nia.
Qed.

Lemma slice_lookup {A : Type} (l : list A) (start count : Z) (i : nat) :
  0 <= start -> 0 <= count ->
  slice l start (start + count) !! i
  = if Z.of_nat i <? count then l !! (Z.to_nat start + i)%nat else None.
Proof.
  intros Hs Hc. unfold slice, sliceIndex.
  replace (start <? 0) with false by (symmetry; apply Z.ltb_ge; lia).
  replace (start + count <? 0) with false by (symmetry; apply Z.ltb_ge; lia).
  set (len := Z.of_nat (length l)).
  destruct (Z.of_nat i <? count) eqn:E.
  - apply Z.ltb_lt in E.
    destruct (Z_lt_le_dec (start + Z.of_nat i) len) as [Hin|Hout].
    + rewrite lookup_take_lt by lia. rewrite lookup_drop. f_equal. lia.
    + rewrite (lookup_ge_None_2 l) by (unfold len in *; lia).
      apply lookup_ge_None_2. rewrite length_take, length_drop.
      unfold len in *. lia.
  - apply Z.ltb_ge in E. apply lookup_ge_None_2.
    rewrite length_take. lia.
Qed.

(** C8.  For a page size and a page number that are at least 1, the page
    count is 1 for an empty list and otherwise the quotient of the length
    by the page size rounded up, and the page holds the entries of the
    list at the positions from [(page - 1) * pageSize] up to
    [page * pageSize], those that exist; 12 entries by pages of 10 make 2
    pages, the second holding the last 2 entries. *)
Theorem pagination_spec (filtered : list View.Transaction) (page pageSize : Z) :
  1 <= page -> 1 <= pageSize ->
  let n := Z.of_nat (length filtered) in
  let count := View.pageCount filtered pageSize in
  let shown := View.paginatedTransactions filtered page pageSize in
  (n = 0 -> count = 1)
  /\ (0 < n -> (count - 1) * pageSize < n <= count * pageSize)
  /\ count = Z.max 1 ((n + pageSize - 1) / pageSize)
  /\ (forall i : nat,
        shown !! i
        = if Z.of_nat i <? pageSize
          then filtered !! (Z.to_nat ((page - 1) * pageSize) + i)%nat
          else None)
  /\ (n = 12 -> pageSize = 10 ->
      count = 2 /\ (page = 2 -> shown = skipn 10 filtered /\ length shown = 2%nat)).
Proof.
  intros Hpage Hsize n count shown.
  pose proof (ceiling_bounds n pageSize ltac:(lia)) as Hc. cbv zeta in Hc.
  assert (Hcount : (n = 0 -> count = 1)
                   /\ (0 < n -> (count - 1) * pageSize < n <= count * pageSize)).
  { subst count. unfold View.pageCount. fold n.
    set (c := Qceiling (inject_Z n / inject_Z pageSize)) in *.
    destruct (c =? 0) eqn:E.
    - apply Z.eqb_eq in E. rewrite E in Hc. split; [reflexivity | lia].
    - apply Z.eqb_neq in E. split; [|intros _; exact Hc].
      intros Hn. exfalso. apply E.
      assert (c <= 0) by nia. assert (0 <= c) by nia. lia. }
  assert (Hshown : forall i : nat,
             shown !! i
             = if Z.of_nat i <? pageSize
               then filtered !! (Z.to_nat ((page - 1) * pageSize) + i)%nat
               else None).
  { intros i. subst shown. unfold View.paginatedTransactions.
    replace (page * pageSize) with ((page - 1) * pageSize + pageSize) by lia.
    apply slice_lookup; nia. }
  destruct Hcount as [Hzero Hpos].
  split; [exact Hzero|]. split; [exact Hpos|].
  split; [|split; [exact Hshown|]].
  { destruct (Z.eq_dec n 0) as [Hn|Hn].
    - rewrite (Hzero Hn), Hn, Z.div_small by lia. reflexivity.
    - assert (H0 : 0 < n) by (subst n; lia). specialize (Hpos H0).
      rewrite <- (Z.div_unique (n + pageSize - 1) pageSize count
                    (n + pageSize - 1 - pageSize * count)) by lia.
      nia. }
  intros Hn ->.
  assert (Hlen : length filtered = 12%nat) by (subst n; lia).
  split; [specialize (Hpos ltac:(lia)); rewrite Hn in Hpos; lia|].
  intros ->. subst shown. unfold View.paginatedTransactions, slice, sliceIndex.
  rewrite Hlen.
  repeat match goal with
         | |- context [Z.to_nat ?e] =>
             let v := eval vm_compute in (Z.to_nat e) in
             progress change (Z.to_nat e) with v
         end.
  assert (Hrest : length (skipn 10 filtered) = 2%nat)
    by (rewrite length_drop, Hlen; reflexivity).
  split; [|rewrite firstn_all2 by lia; exact Hrest].
  apply firstn_all2. lia.
Qed.

Lemma pagination_spec_witness :
  View.pageCount Sample.twelve 10 = 2
  /\ View.paginatedTransactions Sample.twelve 2 10 = skipn 10 Sample.twelve
  /\ length (View.paginatedTransactions Sample.twelve 2 10) = 2%nat.
Proof.
  destruct (pagination_spec Sample.twelve 2 10 ltac:(lia) ltac:(lia))
    as (_ & _ & _ & _ & H).
  destruct (H eq_refl eq_refl) as [Hc Hs].
  split; [exact Hc | exact (Hs eq_refl)].
Defined.

End Pagination.

(** ** Further properties of the Normalizer and the Assembler *)

Section MoreNormalizer.

Import Route.
Local Open Scope Q_scope.

Lemma keeps_dropCondition (tx : JSON) : Props.keeps tx = true <-> ~ dropCondition tx.
Proof.
  rewrite dropCondition_tests. unfold Props.keeps.
  destruct (typeof (field tx "date") =? "string")%string,
           (typeof (field tx "description") =? "string")%string,
           (Qltb 0 (resolved tx "moneyIn") && Qltb 0 (resolved tx "moneyOut")),
           (Qltb (resolved tx "moneyIn") 0 || Qltb (resolved tx "moneyOut") 0);
    cbn; intuition congruence.
Qed.

Lemma normalizeEntry_keeps (currency : option JSON) (tx : JSON) :
  tx <> JNull ->
  normalizeEntry currency tx
  = Ok (if Props.keeps tx then [emitted currency tx] else []).
Proof.
  intros Hnull. rewrite (normalizeEntry_cascade _ _ Hnull). unfold Props.keeps.
  destruct (typeof (field tx "date") =? "string")%string,
           (typeof (field tx "description") =? "string")%string,
           (Qltb 0 (resolved tx "moneyIn") && Qltb 0 (resolved tx "moneyOut")),
           (Qltb (resolved tx "moneyIn") 0 || Qltb (resolved tx "moneyOut") 0);
    reflexivity.
Qed.

Lemma isNull_spec (tx : JSON) : Controls.isNull (Some tx) = true <-> tx = JNull.
Proof. destruct tx; cbn; split; congruence. Qed.

(** What [flatMap] makes of the callback: a TypeError when the list holds
    a [null], else the transactions of the entries that are kept. *)
Lemma flatMap_normalizeEntry (currency : option JSON) (l : list JSON) :
  flatMap (normalizeEntry currency) l
  = if existsb (fun tx => Controls.isNull (Some tx)) l then Throw TypeError
    else Ok (map (emitted currency) (List.filter Props.keeps l)).
Proof.
  induction l as [|tx l IH]; [reflexivity|].
  cbn [flatMap existsb List.filter]. rewrite IH.
  destruct (Controls.isNull (Some tx)) eqn:E.
  - apply isNull_spec in E. subst tx. reflexivity.
  - assert (Hnull : tx <> JNull) by (intros ->; discriminate).
    rewrite (normalizeEntry_keeps _ _ Hnull). cbn [bind orb].
    destruct (existsb _ l); [reflexivity|].
    cbn [bind]. destruct (Props.keeps tx); reflexivity.
Qed.

(** X1.  The transactions of the Ledger are those of the entries that pass
    the four tests, one per entry and in the order of the input, whatever
    lies between them; a [null] among the entries makes the call throw a
    TypeError instead. *)
Theorem normalizeTransactions_kept (currency : option JSON) (l : list JSON) :
  normalizeTransactions currency (Some (JArr l))
  = (if existsb (fun tx => Controls.isNull (Some tx)) l then Throw TypeError
     else Ok (map (emitted currency) (List.filter Props.keeps l)))
  /\ (forall tx, Props.keeps tx = true <-> ~ dropCondition tx)
  /\ (forall out, normalizeTransactions currency (Some (JArr l)) = Ok out ->
      (length out <= length l)%nat).
Proof.
  unfold normalizeTransactions. cbn [Array_isArray elementsOf].
  rewrite flatMap_normalizeEntry.
  split; [reflexivity|]. split; [exact keeps_dropCondition|].
  intros out. destruct (existsb _ l); [discriminate|].
  intros [= <-]. rewrite length_map. apply filter_length_le.
Qed.

Lemma existsb_isNull (l : list JSON) :
  existsb (fun tx => Controls.isNull (Some tx)) l = true <-> In JNull l.
Proof.
  rewrite existsb_exists. split.
  - intros (tx & Hin & H). apply isNull_spec in H. now subst.
  - intros H. exists JNull. split; [exact H | reflexivity].
Qed.

Lemma normalizeTransactions_throws (currency raw : option JSON) :
  (exists e, normalizeTransactions currency raw = Throw e) <-> Props.holdsNull raw.
Proof.
  unfold normalizeTransactions, Props.holdsNull.
  destruct raw as [[| | | |l|]|]; cbn [Array_isArray elementsOf];
    try (split; [intros [e H]; discriminate | intros (l & H & _); discriminate]).
  rewrite flatMap_normalizeEntry.
  destruct (existsb _ l) eqn:E.
  - apply existsb_isNull in E. split; [intros _; now exists l | intros _; eauto].
  - split; [intros [e H]; discriminate|].
    intros (l' & [= <-] & Hin). apply existsb_isNull in Hin. congruence.
Qed.

(** X2.  After a successful parse the Assembler fails in two cases only:
    the parsed value is [null], or its [transactions] is an array that
    holds a [null].  Every other value, object or not, gives a Ledger. *)
Theorem assemble_throws_iff (parsed : JSON) :
  (exists e, assemble parsed = Throw e)
  <-> parsed = JNull \/ Props.holdsNull (field parsed "transactions").
Proof.
  destruct (Controls.isNull (Some parsed)) eqn:E.
  - apply isNull_spec in E. subst parsed. split; [auto | intros _; now exists TypeError].
  - assert (Hnull : parsed <> JNull) by (intros ->; discriminate).
    rewrite <- (normalizeTransactions_throws (field parsed "currency")).
    unfold assemble. rewrite !(get_field parsed _ Hnull). cbn [bind].
    destruct (normalizeTransactions _ _) as [out|e]; cbn [bind].
    + split; [intros [e H]; discriminate | intros [H | [e H]]; congruence].
    + split; [intros _; right; eauto | intros _; eauto].
Qed.

(** On a Ledger whose statement currency is falsy, every transaction
    carries a string. *)
Lemma emitted_currency_string (currency : option JSON) (tx : JSON) :
  truthy currency = false ->
  exists s, Transaction.currency (emitted currency tx) = JStr s.
Proof.
  intros Hc. cbn [emitted Transaction.currency].
  destruct (typeof (field tx "currency") =? "string")%string; [eauto|].
  unfold orElse. rewrite Hc. destruct currency; eauto.
Qed.

(** X3.  The currency of the Ledger is never missing and never [null]: it
    is the statement's currency when that is truthy; otherwise it is a
    string, ["$"] when no transaction is kept and else the currency of the
    first transaction kept. *)
Theorem ledger_currency (parsed : JSON) (d : StatementDetails.t) :
  assemble parsed = Ok d ->
  exists c,
    StatementDetails.currency d = Some c /\ c <> JNull
    /\ (truthy (field parsed "currency") = true -> Some c = field parsed "currency")
    /\ (truthy (field parsed "currency") = false ->
        (exists s, c = JStr s)
        /\ (StatementDetails.transactions d = [] -> c = JStr "$")
        /\ (forall t ts, StatementDetails.transactions d = t :: ts ->
            c = Transaction.currency t)).
Proof.
  intros H.
  assert (Hnull : parsed <> JNull) by (intros ->; discriminate).
  unfold assemble in H. rewrite !(get_field parsed _ Hnull) in H. cbn [bind] in H.
  set (cur := field parsed "currency") in *.
  destruct (normalizeTransactions cur (field parsed "transactions")) as [out|] eqn:E;
    [|discriminate].
  cbn [bind] in H. injection H as <-. cbn [StatementDetails.currency StatementDetails.transactions].
  eexists. split; [reflexivity|].
  destruct (truthy cur) eqn:Hc.
  - unfold orElse. rewrite Hc. destruct cur as [c|]; [|discriminate].
    split; [intros ->; discriminate|]. split; [reflexivity | discriminate].
  - assert (Hor : orElse cur (firstCurrency out) = firstCurrency out)
      by (unfold orElse; rewrite Hc; now destruct cur).
    rewrite Hor.
    assert (Hout : Forall (fun t => exists s, Transaction.currency t = JStr s) out).
    { unfold normalizeTransactions in E.
      destruct (Array_isArray (field parsed "transactions")).
      - rewrite flatMap_normalizeEntry in E.
        destruct (existsb _ _); [discriminate|]. injection E as <-.
        apply List.Forall_forall. intros t Ht. apply in_map_iff in Ht as (tx & <- & _).
        now apply emitted_currency_string.
      - injection E as <-. constructor. }
    destruct out as [|t ts]; cbn [firstCurrency].
    + split; [discriminate|]. split; [discriminate|].
      intros _. split; [eauto|]. split; [reflexivity | discriminate].
    + inversion Hout as [|? ? [s Hs] _]; subst. rewrite Hs.
      split; [discriminate|]. split; [discriminate|].
      intros _. split; [eauto|]. split; [discriminate|].
      intros t' ts' [= <- <-]. now rewrite Hs.
Qed.

Lemma ledger_currency_witness :
  assemble Sample.mistyped = Ok Sample.mistypedDetails
  /\ exists c, StatementDetails.currency Sample.mistypedDetails = Some c /\ c <> JNull.
Proof.
  assert (H : assemble Sample.mistyped = Ok Sample.mistypedDetails)
    by (vm_compute; reflexivity).
  split; [exact H|].
  destruct (ledger_currency Sample.mistyped Sample.mistypedDetails H) as (c & Hc & Hn & _).
  exists c. split; assumption.
Defined.

End MoreNormalizer.

Section MoreReconciliation.

Import Route.
Local Open Scope Q_scope.

(** A number is within half a hundredth of its rounding, the half being
    reached on the side away from zero only. *)
Lemma roundCents_near (x : Q) :
  (0 <= x -> inject_Z (roundCents x) - (1 # 2) <= x * 100
             /\ x * 100 < inject_Z (roundCents x) + (1 # 2))
  /\ (x < 0 -> inject_Z (roundCents x) - (1 # 2) < x * 100
               /\ x * 100 <= inject_Z (roundCents x) + (1 # 2)).
Proof.
  unfold roundCents. split; intros Hx.
  - apply Qle_bool_iff in Hx. rewrite Hx.
    pose proof (Qfloor_le (x * 100 + (1 # 2))) as H1.
    pose proof (Qlt_floor (x * 100 + (1 # 2))) as H2.
    rewrite inject_Z_plus in H2. change (inject_Z 1) with 1 in H2.
    split; lra.
  - assert (E : Qle_bool 0 x = false).
    { destruct (Qle_bool 0 x) eqn:E; [|reflexivity].
      apply Qle_bool_iff in E. lra. }
    rewrite E.
    pose proof (Qle_ceiling (x * 100 - (1 # 2))) as H1.
    pose proof (Qceiling_lt (x * 100 - (1 # 2))) as H2.
    unfold Z.sub in H2. rewrite inject_Z_plus in H2.
    change (inject_Z (- (1))) with (- (1)) in H2.
    split; lra.
Qed.

(** X4.  The sum being formed as the program forms it (additions of
    doubles, in the order of the transactions, the starting balance added
    last): a statement whose ending balance is that sum reconciles; and
    when the verdict is [true] the two differ by less than one
    hundredth. *)
Theorem reconciles_within_a_cent (s e : Q) (transactions : list Transaction.t) :
  (Number_add s (total transactions) == e ->
   reconciles (Some (JNum s)) (Some (JNum e)) transactions = Some true)
  /\ (reconciles (Some (JNum s)) (Some (JNum e)) transactions = Some true ->
      Qabs (Number_add s (total transactions) - e) < 1 # 100).
Proof.
  rewrite reconciles_numbers. split.
  - intros H. f_equal. apply bool_decide_eq_true_2. now apply roundCents_comp.
  - intros [= H]. apply bool_decide_eq_true_1 in H.
    set (a := Number_add s (total transactions)) in *.
    destruct (roundCents_near a) as [Ha1 Ha2].
    destruct (roundCents_near e) as [He1 He2].
    rewrite H in Ha1, Ha2.
    apply Qabs_Qlt_condition.
    destruct (Qlt_le_dec a 0) as [Ha|Ha]; destruct (Qlt_le_dec e 0) as [He|He];
      try specialize (Ha1 Ha); try specialize (Ha2 Ha);
      try specialize (He1 He); try specialize (He2 He); split; lra.
Qed.

Lemma reconciles_within_a_cent_witness :
  (Number_add 0 (total Sample.cancelling) == 0)
  /\ reconciles (Some (JNum 0)) (Some (JNum 0)) Sample.cancelling = Some true
  /\ Qabs (Number_add 0 (total Sample.cancelling) - 0) < 1 # 100.
Proof.
  assert (Hsum : Number_add 0 (total Sample.cancelling) == 0) by (vm_compute; reflexivity).
  destruct (reconciles_within_a_cent 0 0 Sample.cancelling) as [H1 H2].
  split; [exact Hsum|]. split; [exact (H1 Hsum) | exact (H2 (H1 Hsum))].
Defined.

End MoreReconciliation.

(** ** The two copies of the route *)

Section Copies.

Local Open Scope Q_scope.

Lemma earlier_normalizeEntry_keeps (tx : JSON) :
  tx <> JNull ->
  Earlier.normalizeEntry tx
  = Ok (if Props.keeps tx then [Props.emittedEarlier tx] else []).
Proof.
  intros Hnull. unfold Earlier.normalizeEntry, Props.keeps.
  rewrite !(get_field tx _ Hnull). cbn [bind].
  destruct (typeof (field tx "date") =? "string")%string; [|reflexivity].
  destruct (typeof (field tx "description") =? "string")%string; [|reflexivity].
  rewrite !resolved_numberOf. cbn [negb andb].
  destruct (Qltb 0 (resolved tx "moneyIn") && Qltb 0 (resolved tx "moneyOut"));
    [reflexivity|].
  destruct (Qltb (resolved tx "moneyIn") 0 || Qltb (resolved tx "moneyOut") 0);
    reflexivity.
Qed.

Lemma earlier_flatMap (l : list JSON) :
  flatMap Earlier.normalizeEntry l
  = if existsb (fun tx => Controls.isNull (Some tx)) l then Throw TypeError
    else Ok (map Props.emittedEarlier (List.filter Props.keeps l)).
Proof.
  induction l as [|tx l IH]; [reflexivity|].
  cbn [flatMap existsb List.filter]. rewrite IH.
  destruct (Controls.isNull (Some tx)) eqn:E.
  - apply isNull_spec in E. subst tx. reflexivity.
  - assert (Hnull : tx <> JNull) by (intros ->; discriminate).
    rewrite (earlier_normalizeEntry_keeps _ Hnull). cbn [bind orb].
    destruct (existsb _ l); [reflexivity|].
    cbn [bind]. destruct (Props.keeps tx); reflexivity.
Qed.

Lemma withoutCurrency_emitted (currency : option JSON) (l : list JSON) :
  map Props.withoutCurrency (map (emitted currency) l) = map Props.emittedEarlier l.
Proof. rewrite map_map. reflexivity. Qed.

Lemma earlier_reconciles (startingBalance endingBalance : option JSON)
    (transactions : list Transaction.t) :
  Earlier.reconciles startingBalance endingBalance (map Props.withoutCurrency transactions)
  = Route.reconciles startingBalance endingBalance transactions.
Proof.
  unfold Earlier.reconciles, Route.reconciles.
  assert (Hsum : forall acc,
             fold_left (fun acc t => Number_add acc (Earlier.Transaction.amount t))
               (map Props.withoutCurrency transactions) acc
             = fold_left (fun acc t => Number_add acc (Transaction.amount t))
                 transactions acc).
  { induction transactions as [|t l IH]; intros acc; [reflexivity|].
    cbn [map fold_left]. apply IH. }
  unfold Earlier.sumTx, Route.sumTx. now rewrite Hsum.
Qed.

(** X5.  The two copies of the route fail on the same parsed values, with
    the same exception; on every other value they keep the same entries,
    with the same dates, descriptions and amounts in the same order (the
    current copy adding a currency to each), and reach the same
    verdict. *)
Theorem copies_agree (parsed : JSON) :
  match Route.assemble parsed, Earlier.assemble parsed with
  | Ok d, Ok d' =>
      map Props.withoutCurrency (StatementDetails.transactions d)
      = Earlier.StatementDetails.transactions d'
      /\ StatementDetails.reconciles d = Earlier.StatementDetails.reconciles d'
  | Throw e, Throw e' => e = e'
  | _, _ => False
  end.
Proof.
  destruct (Controls.isNull (Some parsed)) eqn:E.
  - apply isNull_spec in E. subst parsed. reflexivity.
  - assert (Hnull : parsed <> JNull) by (intros ->; discriminate).
    unfold Route.assemble, Earlier.assemble.
    rewrite !(get_field parsed _ Hnull). cbn [bind].
    unfold Route.normalizeTransactions, Earlier.normalizeTransactions.
    destruct (Array_isArray (field parsed "transactions")).
    + rewrite flatMap_normalizeEntry, earlier_flatMap.
      destruct (existsb _ _); [reflexivity|]. cbn [bind].
      cbn [StatementDetails.transactions StatementDetails.reconciles
           Earlier.StatementDetails.transactions Earlier.StatementDetails.reconciles].
      rewrite withoutCurrency_emitted. split; [reflexivity|].
      rewrite <- earlier_reconciles, withoutCurrency_emitted. reflexivity.
    + cbn [bind]. split; reflexivity.
Qed.

(** X6.  The response of the earlier copy is typed: each balance is a
    number or [null], a number of the parsed object being kept as it is;
    name, address and date are never [undefined]; and the verdict is
    [null] exactly when one of the balances of the response is [null]. *)
Theorem earlier_headers (parsed : JSON) (d : Earlier.StatementDetails.t) :
  Earlier.assemble parsed = Ok d ->
  (conforms "number" (Earlier.StatementDetails.startingBalance d)
   /\ conforms "number" (Earlier.StatementDetails.endingBalance d))
  /\ (isNumber (field parsed "startingBalance") ->
      Earlier.StatementDetails.startingBalance d = field parsed "startingBalance")
  /\ (isNumber (field parsed "endingBalance") ->
      Earlier.StatementDetails.endingBalance d = field parsed "endingBalance")
  /\ (Earlier.StatementDetails.name d <> None
      /\ Earlier.StatementDetails.address d <> None
      /\ Earlier.StatementDetails.date d <> None)
  /\ (Earlier.StatementDetails.reconciles d = None
      <-> Earlier.StatementDetails.startingBalance d = Some JNull
          \/ Earlier.StatementDetails.endingBalance d = Some JNull).
Proof.
  intros H.
  assert (Hnull : parsed <> JNull) by (intros ->; discriminate).
  unfold Earlier.assemble in H. rewrite !(get_field parsed _ Hnull) in H.
  cbn [bind] in H.
  destruct (Earlier.normalizeTransactions _) as [out|]; [|discriminate].
  cbn [bind] in H. injection H as <-.
  cbn [Earlier.StatementDetails.startingBalance Earlier.StatementDetails.endingBalance
       Earlier.StatementDetails.name Earlier.StatementDetails.address
       Earlier.StatementDetails.date Earlier.StatementDetails.reconciles].
  unfold Earlier.numberOrNull, Earlier.reconciles, conforms.
  set (sb := field parsed "startingBalance"). set (eb := field parsed "endingBalance").
  split; [|split; [|split; [|split]]].
  - split.
    + destruct (typeof sb =? "number")%string; [right | left]; reflexivity.
    + destruct (typeof eb =? "number")%string; [right | left]; reflexivity.
  - intros [x ->]. reflexivity.
  - intros [x ->]. reflexivity.
  - repeat split; discriminate.
  - destruct (typeof sb =? "number")%string, (typeof eb =? "number")%string;
      cbn [andb]; split; try discriminate; try tauto; intros [H|H]; discriminate.
Qed.

Lemma earlier_headers_witness :
  Earlier.assemble Sample.mistyped
  = Ok {| Earlier.StatementDetails.name := Some (JNum 5);
          Earlier.StatementDetails.address := Some (JStr "1 High Street");
          Earlier.StatementDetails.date := Some JNull;
          Earlier.StatementDetails.startingBalance := Some (JNum 100);
          Earlier.StatementDetails.endingBalance := Some (JNum 100);
          Earlier.StatementDetails.transactions := [];
          Earlier.StatementDetails.reconciles := Some true;
          Earlier.StatementDetails.error := None |}
  /\ conforms "number" (Some (JNum 100)).
Proof.
  assert (H : Earlier.assemble Sample.mistyped
              = Ok {| Earlier.StatementDetails.name := Some (JNum 5);
                      Earlier.StatementDetails.address := Some (JStr "1 High Street");
                      Earlier.StatementDetails.date := Some JNull;
                      Earlier.StatementDetails.startingBalance := Some (JNum 100);
                      Earlier.StatementDetails.endingBalance := Some (JNum 100);
                      Earlier.StatementDetails.transactions := [];
                      Earlier.StatementDetails.reconciles := Some true;
                      Earlier.StatementDetails.error := None |})
    by (vm_compute; reflexivity).
  split; [exact H|].
  exact (proj1 (proj1 (earlier_headers _ _ H))).
Defined.

End Copies.

(** ** The upload, from the page to the handler and back *)

Section Body.

Lemma lookup_setField (k k' : string) (v : option JSON) (m : gmap string JSON) :
  Upload.setField k v m !! k'
  = if decide (k = k')
    then match v with Some x => Some x | None => m !! k' end
    else m !! k'.
Proof.
  unfold Upload.setField. destruct v as [x|].
  - apply lookup_insert.
  - now destruct (decide (k = k')).
Qed.

Ltac body_field :=
  unfold Upload.detailsJSON, field;
  rewrite ?lookup_setField, ?lookup_insert, ?lookup_setField, ?lookup_insert,
    ?lookup_setField, ?lookup_empty;
  repeat (case_decide; try congruence).

(** What the page reads in the body of a response is what the route put in
    its [StatementDetails]: a property left [undefined] is not sent and
    reads as [undefined]. *)
Lemma body_fields (d : StatementDetails.t) :
  field (Upload.detailsJSON d) "error" = JStr <$> StatementDetails.error d
  /\ field (Upload.detailsJSON d) "name" = StatementDetails.name d
  /\ field (Upload.detailsJSON d) "address" = StatementDetails.address d
  /\ field (Upload.detailsJSON d) "date" = StatementDetails.date d
  /\ field (Upload.detailsJSON d) "startingBalance" = StatementDetails.startingBalance d
  /\ field (Upload.detailsJSON d) "endingBalance" = StatementDetails.endingBalance d
  /\ field (Upload.detailsJSON d) "currency" = StatementDetails.currency d
  /\ field (Upload.detailsJSON d) "reconciles"
     = Some match StatementDetails.reconciles d with
            | Some b => JBool b
            | None => JNull
            end
  /\ field (Upload.detailsJSON d) "transactions"
     = Some (JArr (map Route.transactionJSON (StatementDetails.transactions d))).
Proof.
  destruct d as [name address date sb eb txs rec cur err].
  cbn [StatementDetails.error StatementDetails.name StatementDetails.address
       StatementDetails.date StatementDetails.startingBalance
       StatementDetails.endingBalance StatementDetails.currency].
  repeat split; body_field.
  all: cbn [StatementDetails.error StatementDetails.name StatementDetails.address
         StatementDetails.date StatementDetails.startingBalance
         StatementDetails.endingBalance StatementDetails.currency
         StatementDetails.transactions StatementDetails.reconciles].
  all: destruct name, address, date, sb, eb, cur, err; reflexivity.
Qed.

End Body.

Section Post.

Variable pdfParse : string -> Upload.Awaited string.
Variable JSON_parse : string -> result JSON.
Variable complete : string -> result (option string).

Local Abbreviation POST := (Upload.POST pdfParse JSON_parse complete).

(** X7.  The handler answers 200 exactly when the form carries a file
    whose text [pdfParse] extracts and that text is not blank: the body is
    then what [extractStatementDetails] returns, its failure value
    included.  It answers 400 exactly when the form carries no file, and
    500 otherwise; every answer other than 200 has a body made of one
    [error] string. *)
Theorem POST_answers (form : Upload.Awaited Upload.FormValue) :
  (Upload.status (POST form) = 200%Z
   <-> exists bytes text,
         form = Upload.Resolved (Upload.BlobValue bytes)
         /\ pdfParse bytes = Upload.Resolved text /\ trim text <> "")
  /\ (forall bytes text,
        form = Upload.Resolved (Upload.BlobValue bytes) ->
        pdfParse bytes = Upload.Resolved text -> trim text <> "" ->
        Upload.body (POST form)
        = Upload.detailsJSON (Route.extractStatementDetails JSON_parse (complete text)))
  /\ (Upload.status (POST form) = 400%Z
      <-> form = Upload.Resolved Upload.NoValue
          \/ exists text, form = Upload.Resolved (Upload.TextValue text))
  /\ (Upload.status (POST form) <> 200%Z ->
      (Upload.status (POST form) = 400%Z \/ Upload.status (POST form) = 500%Z)
      /\ exists message, Upload.body (POST form) = Upload.errorBody message).
Proof.
  assert (Hblank : forall text, (text =? "") || (trim text =? "") = false <-> trim text <> "").
  { intros text. rewrite orb_false_iff, !String.eqb_neq. split; [tauto|].
    intros H. split; [|exact H]. intros ->. now apply H. }
  destruct form as [[| text | bytes] | t]; cbn [Upload.POST Upload.status Upload.body Upload.caught].
  - split; [split; [discriminate | intros (? & ? & ? & _); discriminate]|].
    split; [intros ? ? ?; discriminate|].
    split; [split; auto|]. intros _. split; [auto | eauto].
  - split; [split; [discriminate | intros (? & ? & ? & _); discriminate]|].
    split; [intros ? ? ?; discriminate|].
    split; [split; eauto|]. intros _. split; [auto | eauto].
  - destruct (pdfParse bytes) as [text | t] eqn:Ep;
      cbn [Upload.status Upload.body Upload.caught].
    + destruct ((text =? "") || (trim text =? "")) eqn:Eb;
        cbn [Upload.status Upload.body].
      * assert (Hb : ~ trim text <> "") by (rewrite <- Hblank; congruence).
        split; [split; [discriminate|]|].
        { intros (b & x & [= <-] & Hx & Hne). rewrite Ep in Hx.
          injection Hx as <-. contradiction. }
        split.
        { intros b x [= <-] Hx Hne. rewrite Ep in Hx. injection Hx as <-. contradiction. }
        split; [split; [discriminate | intros [H | [? H]]; discriminate]|].
        intros _. split; [auto | eauto].
      * apply Hblank in Eb.
        split; [split; [intros _; eauto | reflexivity]|].
        split.
        { intros b x [= <-] Hx _. rewrite Ep in Hx. now injection Hx as <-. }
        split; [split; [discriminate | intros [H | [? H]]; discriminate]|].
        intros H. now contradiction H.
    + split; [split; [discriminate|]|].
      { intros (b & x & [= <-] & Hx & _). rewrite Ep in Hx. discriminate. }
      split.
      { intros b x [= <-] Hx _. rewrite Ep in Hx. discriminate. }
      split; [split; [discriminate | intros [H | [? H]]; discriminate]|].
      intros _. split; [auto | eauto].
  - split; [split; [discriminate | intros (? & ? & ? & _); discriminate]|].
    split; [intros ? ? ?; discriminate|].
    split; [split; [discriminate | intros [H | [? H]]; discriminate]|].
    intros _. split; [auto | eauto].
Qed.

End Post.


Section Submit.



Variable pdfParse : string -> Upload.Awaited string.
Variable JSON_parse : string -> result JSON.
Variable complete : string -> result (option string).

Local Abbreviation server := (Home.fetchFrom (Upload.POST pdfParse JSON_parse complete)).

Lemma extract_cases (reply : result (option string)) :
  (exists d, Route.tryBlock JSON_parse reply = Ok d
             /\ Route.extractStatementDetails JSON_parse reply = d
             /\ StatementDetails.error d = None)
  \/ ((exists e, Route.tryBlock JSON_parse reply = Throw e)
      /\ Route.extractStatementDetails JSON_parse reply = Route.failure).
Proof.
  unfold Route.extractStatementDetails.
  destruct (Route.tryBlock JSON_parse reply) as [d|e] eqn:E; [left | right; eauto].
  exists d. split; [reflexivity|]. split; [reflexivity|].
  unfold Route.tryBlock in E. destruct reply as [[text|]|]; cbn [bind] in E;
    try discriminate.
  destruct (text =? "")%string; [discriminate|].
  destruct (JSON_parse text) as [parsed|]; cbn [bind] in E; [|discriminate].
  exact (assemble_error parsed d E).
Qed.

(** X9.  From the page to the handler and back, for a run of
    [handleSubmit] with no other event in between.  After it the guard
    [result && !error] of the page holds, so that [StatementAnalysis] is
    given the data, exactly when the text of the file was extracted, was
    not blank, and the [try] block of [extractStatementDetails] ran to
    its end; the data is the Ledger of that block.  When the block
    throws, the Ledger of defaults is sent with status 200 but the guard
    does not hold: the page shows its error text.  What
    [StatementAnalysis] does with the data it is given is not part of
    this statement. *)
Theorem submit_end_to_end (st : Home.State) (f : Home.File) :
  Home.file st = Some f ->
  let st' := Home.handleSubmit server st in
  (forall data, Home.analysed st' = Some data <->
     exists text d,
       pdfParse (Home.bytes f) = Upload.Resolved text /\ trim text <> ""
       /\ Route.tryBlock JSON_parse (complete text) = Ok d
       /\ data = Upload.detailsJSON d)
  /\ (forall text e,
        pdfParse (Home.bytes f) = Upload.Resolved text -> trim text <> "" ->
        Route.tryBlock JSON_parse (complete text) = Throw e ->
        Home.analysed st' = None
        /\ Home.error st' = Some (JStr "Failed to extract statement details")).
Proof.
  intros Hf. cbv zeta.
  unfold Home.handleSubmit, Home.fetchFrom, Home.analysed. rewrite Hf.
  unfold Home.submitSettle, Home.submitBegin.
  cbn [Upload.POST Home.file Home.result Home.error Home.loading].
  destruct (pdfParse (Home.bytes f)) as [text | t] eqn:Ep.
  - destruct ((text =? "") || (trim text =? "")) eqn:Eb.
    + assert (Hb : trim text = "").
      { apply orb_true_iff in Eb as [Eb|Eb]; apply String.eqb_eq in Eb;
          [now subst | exact Eb]. }
      cbn. split.
      * intros data. split; [discriminate|].
        intros (x & d & [= <-] & Hne & _). contradiction.
      * intros x e [= <-] Hne. contradiction.
    + apply orb_false_iff in Eb as [_ Eb]. apply String.eqb_neq in Eb.
      cbn [Upload.status Upload.body].
      assert (Hok : Home.okStatus 200 = true) by reflexivity.
      rewrite Hok. cbv iota. cbn [negb orb].
      set (details := Route.extractStatementDetails JSON_parse (complete text)).
      assert (Hnull : Upload.detailsJSON details <> JNull) by discriminate.
      rewrite (get_field _ _ Hnull).
      destruct (body_fields details) as (Herr & _). rewrite Herr.
      destruct (extract_cases (complete text)) as [(d & Ht & Hd & He) | [[e Ht] Hd]];
        fold details in Hd; rewrite Hd.
      * rewrite He. cbn [fmap option_fmap option_map truthy].
        cbn [Home.result Home.error truthy Upload.detailsJSON andb negb].
        split.
        -- intros data. split.
           ++ intros [= <-]. exists text, d. repeat split; assumption.
           ++ intros (x & d' & [= <-] & _ & Hd' & ->). congruence.
        -- intros x e [= <-] _ He'. congruence.
      * cbn [Route.failure StatementDetails.error fmap option_fmap option_map].
        cbn [truthy String.eqb Ascii.eqb Bool.eqb negb Home.result Home.error andb].
        split.
        -- intros data. split; [discriminate|].
           intros (x & d' & [= <-] & _ & Hd' & _). congruence.
        -- intros x e' [= <-] _ _. split; reflexivity.
  - cbn. split.
    + intros data. split; [discriminate|].
      intros (x & d & Hx & _). discriminate.
    + intros x e Hx. discriminate.
Qed.

End Submit.


Lemma submit_end_to_end_witness :
  Home.file Cases.chosen = Some Cases.pdf
  /\ Home.error (Home.handleSubmit
                   (Home.fetchFrom (Upload.POST Cases.readsText Cases.rejects Cases.replies))
                   Cases.chosen)
     = Some (JStr "Failed to extract statement details").
Proof.
  split; [reflexivity|].
  apply (proj2 (submit_end_to_end Cases.readsText Cases.rejects Cases.replies
                  Cases.chosen Cases.pdf eq_refl)
           "Statement of account"%string SyntaxError).
  - reflexivity.
  - discriminate.
  - reflexivity.
Defined.

(** ** The cards of the analysis *)

Section Cards.

Lemma balanceText_ok (balance : option JSON) :
  (exists text, Controls.balanceText balance = Ok text) <-> conforms "number" balance.
Proof.
  unfold Controls.balanceText, conforms.
  destruct balance as [[]|]; cbn; split;
    try (intros [text H]; discriminate); try (intros [H|H]; discriminate); eauto.
Qed.

Lemma balanceText_throws (balance : option JSON) :
  (exists e, Controls.balanceText balance = Throw e) <-> ~ conforms "number" balance.
Proof.
  rewrite <- balanceText_ok.
  destruct (Controls.balanceText balance) as [text|e]; split.
  - intros [e H]. discriminate.
  - intros H. exfalso. apply H. eauto.
  - intros _ [text H]. discriminate.
  - eauto.
Qed.

(** X10.  With a Ledger of the current copy of the route, the expression
    of a balance card evaluates, to ['N/A'] or to the amount, exactly
    when the balance of the parsed object is a number or [null]; a
    balance that is absent or of another type makes [toFixed] throw.  The
    banner that says the reconciliation could not be confirmed asks for a
    null verdict and two balances other than [null]: whenever its
    condition holds, one of the two balance expressions throws.  The
    other expressions of the render are not part of this statement. *)
Theorem balance_cards (parsed : JSON) (d : StatementDetails.t) :
  Route.assemble parsed = Ok d ->
  let data := Upload.detailsJSON d in
  ((exists text, Controls.balanceText (field data "startingBalance") = Ok text)
   <-> conforms "number" (field parsed "startingBalance"))
  /\ ((exists text, Controls.balanceText (field data "endingBalance") = Ok text)
      <-> conforms "number" (field parsed "endingBalance"))
  /\ (Controls.banner (field data "reconciles") (field data "startingBalance")
        (field data "endingBalance") = Controls.CouldNotBeConfirmed ->
      (exists e, Controls.balanceText (field data "startingBalance") = Throw e)
      \/ (exists e, Controls.balanceText (field data "endingBalance") = Throw e)).
Proof.
  intros H. cbv zeta.
  destruct (body_fields d) as (_ & _ & _ & _ & Hsb & Heb & _ & Hrec & _).
  rewrite Hsb, Heb, Hrec, !balanceText_ok, !balanceText_throws.
  assert (Hnull : parsed <> JNull) by (intros ->; discriminate).
  unfold Route.assemble in H. rewrite !(get_field parsed _ Hnull) in H.
  cbn [bind] in H.
  destruct (Route.normalizeTransactions _ _) as [out|]; [|discriminate].
  cbn [bind] in H. injection H as <-.
  cbn [StatementDetails.startingBalance StatementDetails.endingBalance
       StatementDetails.reconciles].
  split; [reflexivity|]. split; [reflexivity|].
  unfold Route.reconciles, Controls.banner, conforms.
  destruct (field parsed "startingBalance") as [[]|],
           (field parsed "endingBalance") as [[]|]; cbn;
    try discriminate;
    try (destruct (strictEqNumber _ _); discriminate);
    intros _;
    first [ left; intros [F|F]; discriminate | right; intros [F|F]; discriminate ].
Qed.

Lemma balance_cards_witness :
  Route.assemble (JObj ∅) = Ok Cases.bareDetails
  /\ ~ (exists text,
          Controls.balanceText (field (Upload.detailsJSON Cases.bareDetails) "startingBalance")
          = Ok text).
Proof.
  assert (H : Route.assemble (JObj ∅) = Ok Cases.bareDetails) by (vm_compute; reflexivity).
  split; [exact H|].
  intros Hok. apply (proj1 (balance_cards (JObj ∅) Cases.bareDetails H)) in Hok.
  destruct Hok as [F|F]; vm_compute in F; discriminate.
Defined.

(** X11.  With a Ledger of the earlier copy of the route the expressions
    of the two balance cards evaluate without exception, and the
    condition of the banner that says the reconciliation could not be
    confirmed never holds.  The other expressions of the render are not
    part of this statement. *)
Theorem earlier_cards (parsed : JSON) (d : Earlier.StatementDetails.t) :
  Earlier.assemble parsed = Ok d ->
  (exists text, Controls.balanceText (Earlier.StatementDetails.startingBalance d) = Ok text)
  /\ (exists text, Controls.balanceText (Earlier.StatementDetails.endingBalance d) = Ok text)
  /\ Controls.banner (Props.verdictJSON (Earlier.StatementDetails.reconciles d))
       (Earlier.StatementDetails.startingBalance d)
       (Earlier.StatementDetails.endingBalance d)
     <> Controls.CouldNotBeConfirmed.
Proof.
  intros H.
  assert (Hnull : parsed <> JNull) by (intros ->; discriminate).
  unfold Earlier.assemble in H. rewrite !(get_field parsed _ Hnull) in H.
  cbn [bind] in H.
  destruct (Earlier.normalizeTransactions _) as [out|]; [|discriminate].
  cbn [bind] in H. injection H as <-.
  cbn [Earlier.StatementDetails.startingBalance Earlier.StatementDetails.endingBalance
       Earlier.StatementDetails.reconciles].
  unfold Earlier.numberOrNull, Earlier.reconciles.
  destruct (typeof (field parsed "startingBalance") =? "number")%string,
           (typeof (field parsed "endingBalance") =? "number")%string;
    cbn; (split; [eauto|]); (split; [eauto|]);
    try (destruct (strictEqNumber _ _)); discriminate.
Qed.

Lemma earlier_cards_witness :
  Earlier.assemble (JObj ∅) = Ok Cases.bareEarlier
  /\ exists text,
       Controls.balanceText (Earlier.StatementDetails.startingBalance Cases.bareEarlier)
       = Ok text.
Proof.
  assert (H : Earlier.assemble (JObj ∅) = Ok Cases.bareEarlier)
    by (vm_compute; reflexivity).
  split; [exact H|].
  exact (proj1 (earlier_cards (JObj ∅) Cases.bareEarlier H)).
Defined.

End Cards.

(** ** The page controls *)

Section PageControls.

Local Open Scope Z_scope.

Lemma pageNumbers_seqZ (pageCount : Z) : Controls.pageNumbers pageCount = seqZ 1 pageCount.
Proof.
  unfold Controls.pageNumbers, seqZ. apply map_ext. intros i. lia.
Qed.

(** The numbered buttons are the pages from two before the current one to
    two after it, as far as they exist. *)
Lemma pageButtons_seqZ (pageCount page : Z) :
  1 <= page <= pageCount ->
  Controls.pageButtons pageCount page
  = seqZ (Z.max 1 (page - 2))
         (Z.min pageCount (page + 2) - Z.max 1 (page - 2) + 1).
Proof.
  intros Hp. unfold Controls.pageButtons. rewrite pageNumbers_seqZ.
  apply list_eq. intros i.
  replace (Z.min pageCount (page + 2))
    with (Z.max 0 (page - 3) + (Z.min pageCount (page + 2) - Z.max 0 (page - 3)))
    by lia.
  rewrite slice_lookup by lia.
  destruct (Z.of_nat i <? Z.min pageCount (page + 2) - Z.max 0 (page - 3)) eqn:E.
  - apply Z.ltb_lt in E.
    rewrite !lookup_seqZ_lt by lia. f_equal. lia.
  - apply Z.ltb_ge in E. rewrite lookup_seqZ_ge by lia. reflexivity.
Qed.

(** X12.  On a page between 1 and the page count, the numbered buttons
    are at most five consecutive pages, all of them between 1 and the page
    count, and the current page is one of them. *)
Theorem pageButtons_spec (pageCount page : Z) :
  1 <= page <= pageCount ->
  (forall pn, In pn (Controls.pageButtons pageCount page)
              <-> Z.max 1 (page - 2) <= pn <= Z.min pageCount (page + 2))
  /\ In page (Controls.pageButtons pageCount page)
  /\ (length (Controls.pageButtons pageCount page) <= 5)%nat
  /\ (forall i pn, Controls.pageButtons pageCount page !! i = Some pn ->
      pn = Z.max 1 (page - 2) + Z.of_nat i).
Proof.
  intros Hp. rewrite (pageButtons_seqZ _ _ Hp).
  assert (Hin : forall pn,
             In pn (seqZ (Z.max 1 (page - 2))
                      (Z.min pageCount (page + 2) - Z.max 1 (page - 2) + 1))
             <-> Z.max 1 (page - 2) <= pn <= Z.min pageCount (page + 2)).
  { intros pn. rewrite <- list_elem_of_In, elem_of_seqZ. lia. }
  split; [exact Hin|]. split; [apply Hin; lia|].
  split; [rewrite length_seqZ; lia|].
  intros i pn H. apply lookup_seqZ in H. tauto.
Qed.

Lemma pageButtons_spec_witness :
  1 <= 4 <= 9 /\ In 4 (Controls.pageButtons 9 4).
Proof.
  split; [lia|].
  apply (pageButtons_spec 9 4). lia.
Defined.

Lemma pageCount_positive (filtered : list View.Transaction) (pageSize : Z) :
  1 <= pageSize -> 1 <= View.pageCount filtered pageSize.
Proof.
  intros Hs. unfold View.pageCount.
  pose proof (ceiling_bounds (Z.of_nat (length filtered)) pageSize ltac:(lia)) as Hc.
  cbv zeta in Hc.
  set (c := Qceiling _) in *.
  destruct (c =? 0) eqn:E; [lia|]. apply Z.eqb_neq in E.
  assert (0 <= c) by nia. lia.
Qed.

Lemma pageSizeOptions_positive (n : Z) : In n Controls.pageSizeOptions -> 1 <= n.
Proof.
  unfold Controls.pageSizeOptions. cbn. intros H.
  repeat (destruct H as [<-|H]; [lia|]). destruct H.
Qed.

Lemma page_invariant (transactions : list View.Transaction) (st : Controls.State) :
  Controls.reachable transactions st ->
  1 <= Controls.page st <= Controls.pageCountOf transactions st
  /\ In (Controls.pageSize st) Controls.pageSizeOptions.
Proof.
  induction 1 as [|st ev _ [Hpage Hsize] Hen].
  - split; [|cbn; tauto]. unfold Controls.pageCountOf. cbn [Controls.initial Controls.page].
    pose proof (pageCount_positive
                  (View.filteredTransactions (Controls.search Controls.initial) transactions)
                  (Controls.pageSize Controls.initial) ltac:(cbn; lia)).
    lia.
  - pose proof (pageSizeOptions_positive _ Hsize) as Hpos.
    unfold Controls.step, Controls.effect.
    destruct ev as [value | value | | | pn]; cbn [Controls.handle Controls.search
      Controls.pageSize Controls.page Controls.enabled] in *.
    + destruct (Controls.search st =? value)%string eqn:E; cbn [andb].
      * apply String.eqb_eq in E. subst value. rewrite Z.eqb_refl.
        destruct st; split; assumption.
      * split; [|exact Hsize]. unfold Controls.pageCountOf.
        cbn [Controls.page Controls.search Controls.pageSize].
        pose proof (pageCount_positive (View.filteredTransactions value transactions)
                      (Controls.pageSize st) Hpos). lia.
    + rewrite String.eqb_refl. cbn [andb].
      destruct (Controls.pageSize st =? value) eqn:E.
      * apply Z.eqb_eq in E. subst value. destruct st; split; assumption.
      * split; [|exact Hen]. unfold Controls.pageCountOf.
        cbn [Controls.page Controls.search Controls.pageSize].
        pose proof (pageCount_positive
                      (View.filteredTransactions (Controls.search st) transactions)
                      value (pageSizeOptions_positive _ Hen)). lia.
    + rewrite String.eqb_refl, Z.eqb_refl. cbn [andb].
      split; [|exact Hsize]. unfold Controls.pageCountOf in *.
      cbn [Controls.page Controls.search Controls.pageSize]. lia.
    + rewrite String.eqb_refl, Z.eqb_refl. cbn [andb].
      split; [|exact Hsize]. unfold Controls.pageCountOf in *.
      cbn [Controls.page Controls.search Controls.pageSize]. lia.
    + rewrite String.eqb_refl, Z.eqb_refl. cbn [andb].
      split; [|exact Hsize].
      rewrite (pageButtons_seqZ _ _ Hpage), <- list_elem_of_In, elem_of_seqZ in Hen.
      unfold Controls.pageCountOf in *.
      cbn [Controls.page Controls.search Controls.pageSize]. lia.
Qed.

(** X13.  Whatever the user types, picks and presses, the component
    settles on a page between 1 and the page count of what the search
    keeps, with a page size of the select; so when the search keeps a
    transaction, the page shown is never empty. *)
Theorem page_in_range (transactions : list View.Transaction) (st : Controls.State) :
  Controls.reachable transactions st ->
  let filtered := View.filteredTransactions (Controls.search st) transactions in
  1 <= Controls.page st <= View.pageCount filtered (Controls.pageSize st)
  /\ In (Controls.pageSize st) Controls.pageSizeOptions
  /\ (filtered <> [] ->
      View.paginatedTransactions filtered (Controls.page st) (Controls.pageSize st) <> []).
Proof.
  intros Hr filtered.
  destruct (page_invariant _ _ Hr) as [Hpage Hsize].
  unfold Controls.pageCountOf in Hpage. fold filtered in Hpage.
  split; [exact Hpage|]. split; [exact Hsize|].
  intros Hne.
  pose proof (pageSizeOptions_positive _ Hsize) as Hpos.
  set (ps := Controls.pageSize st) in *. set (p := Controls.page st) in *.
  assert (Hn : 0 < Z.of_nat (length filtered)) by (destruct filtered; [congruence | cbn; lia]).
  pose proof (ceiling_bounds (Z.of_nat (length filtered)) ps ltac:(lia)) as Hc.
  cbv zeta in Hc.
  assert (Hlt : (p - 1) * ps < Z.of_nat (length filtered)).
  { unfold View.pageCount in Hpage.
    set (c := Qceiling _) in *. destruct (c =? 0) eqn:E; nia. }
  assert (H0 : View.paginatedTransactions filtered p ps !! 0%nat
               = filtered !! Z.to_nat ((p - 1) * ps)).
  { unfold View.paginatedTransactions.
    replace (p * ps) with ((p - 1) * ps + ps) by lia.
    rewrite slice_lookup by nia.
    replace (Z.of_nat 0 <? ps) with true by (symmetry; apply Z.ltb_lt; lia).
    f_equal. lia. }
  intros Hnil. rewrite Hnil in H0. cbn in H0. symmetry in H0.
  apply lookup_ge_None_1 in H0. nia.
Qed.

Lemma page_in_range_witness :
  Controls.reachable Sample.ledger
    (Controls.step Sample.ledger Controls.initial (Controls.Search "coffee"))
  /\ View.paginatedTransactions
       (View.filteredTransactions "coffee" Sample.ledger) 1 10 <> [].
Proof.
  assert (Hr : Controls.reachable Sample.ledger
                 (Controls.step Sample.ledger Controls.initial (Controls.Search "coffee")))
    by (apply Controls.reachable_step; [apply Controls.reachable_initial | exact I]).
  split; [exact Hr|].
  destruct (page_in_range Sample.ledger _ Hr) as (_ & _ & H).
  apply H. vm_compute. discriminate.
Defined.

End PageControls.

(** ** The amount cell and the address card *)

Section Cells.

Local Open Scope Q_scope.

Lemma toFixed2_negative (x : Q) :
  Qltb x 0 = true -> toFixed2 x = ("-" ++ toFixed2 (Qabs x))%string.
Proof.
  intros Hneg. unfold toFixed2. rewrite Hneg.
  assert (Hp : Qltb (Qabs x) 0 = false).
  { apply Qltb_nlt. intros H. exact (Qlt_not_le _ _ H (Qabs_nonneg x)). }
  rewrite Hp.
  assert (Habs : Qabs (Qabs x) == Qabs x) by (apply Qabs_pos, Qabs_nonneg).
  rewrite (Qfloor_comp (Qabs (Qabs x) * 100 + (1 # 2)) (Qabs x * 100 + (1 # 2)))
    by (now rewrite Habs).
  reflexivity.
Qed.

(** X14.  The amount cell shows the text the search reads, [toFixed(2)] of
    the amount, with a dollar sign put after its sign: a term found in the
    digits of the cell is found by the search. *)
Theorem amountText_search (amount : Q) :
  exists sign digits : string,
    (sign = "" \/ sign = "-")
    /\ toFixed2 amount = (sign ++ digits)%string
    /\ Controls.amountText amount = (sign ++ "$" ++ digits)%string
    /\ (forall date desc term,
          occursIn term digits ->
          View.matches term {| View.date := date; View.desc := desc;
                               View.amount := amount |} = true).
Proof.
  unfold Controls.amountText, View.matches. cbn [View.amount].
  destruct (Qltb amount 0) eqn:E.
  - exists "-"%string, (toFixed2 (Qabs amount)).
    rewrite (toFixed2_negative _ E).
    split; [auto|]. split; [reflexivity|]. split; [reflexivity|].
    intros date desc term (a & b & Hd).
    rewrite !orb_true_iff. right. apply includes_occursIn.
    exists ("-" ++ a)%string, b. rewrite Hd.
    now rewrite !append_cons, append_nil.
  - exists ""%string, (toFixed2 amount).
    split; [auto|]. split; [reflexivity|]. split; [reflexivity|].
    intros date desc term Hd.
    rewrite !orb_true_iff. right. now apply includes_occursIn.
Qed.

Lemma splitComma_parts (s : string) :
  length (Controls.splitComma s) = S (Props.commas s)
  /\ Forall (fun part => Props.commas part = 0%nat) (Controls.splitComma s).
Proof.
  induction s as [|c s [IHl IHf]]; [split; [reflexivity | repeat constructor]|].
  cbn [Controls.splitComma Props.commas].
  destruct (Controls.splitComma s) as [|part parts]; [discriminate|].
  inversion IHf as [|? ? Hp Hps]; subst.
  destruct (Ascii.eqb c ",") eqn:E.
  - split; [cbn in *; lia|]. repeat constructor; assumption.
  - split; [cbn in *; lia|]. constructor; [|assumption].
    cbn [Props.commas]. now rewrite E.
Qed.

Lemma commas_trimStart (s : string) :
  Props.commas s = 0%nat -> Props.commas (trimStart s) = 0%nat.
Proof.
  induction s as [|c s IH]; [reflexivity|]. cbn [trimStart Props.commas].
  destruct (isWhiteSpace c); [|tauto].
  destruct (Ascii.eqb c ","); [discriminate|]. exact IH.
Qed.

Lemma commas_trimEnd (s : string) :
  Props.commas s = 0%nat -> Props.commas (trimEnd s) = 0%nat.
Proof.
  induction s as [|c s IH]; [reflexivity|]. cbn [trimEnd Props.commas].
  destruct (Ascii.eqb c ",") eqn:E; [discriminate|]. intros H.
  specialize (IH H). destruct (trimEnd s) as [|y r].
  - destruct (isWhiteSpace c); [reflexivity|]. cbn [Props.commas]. now rewrite E.
  - cbn [Props.commas] in *. now rewrite E.
Qed.

(** X15.  The address card shows ['N/A'] for a falsy address.  For a
    string it shows one line per part between commas, one more than there
    are commas, each with no surrounding white space and no comma.  An
    address of any other truthy type makes [split] throw. *)
Theorem addressLines_spec (address : option JSON) :
  (truthy address = false -> Controls.addressLines address = Ok None)
  /\ (forall s, address = Some (JStr s) -> s <> "" ->
      exists lines,
        Controls.addressLines address = Ok (Some lines)
        /\ length lines = S (Props.commas s)
        /\ Forall (fun line => trimmed line /\ Props.commas line = 0%nat) lines)
  /\ (truthy address = true -> ~ isString address ->
      Controls.addressLines address = Throw TypeError).
Proof.
  unfold Controls.addressLines. split; [now intros ->|]. split.
  - intros s -> Hs. cbn [truthy].
    apply String.eqb_neq in Hs. rewrite Hs. cbn [negb].
    eexists. split; [reflexivity|].
    destruct (splitComma_parts s) as [Hl Hf].
    split; [now rewrite length_map|].
    apply Forall_map. eapply Forall_impl; [exact Hf|].
    intros part Hp. cbv beta. split; [apply trim_trimmed|].
    unfold trim. now apply commas_trimEnd, commas_trimStart.
  - intros -> Hn. destruct address as [[]|]; try reflexivity.
    exfalso. apply Hn. unfold isString. eauto.
Qed.

Lemma addressLines_spec_witness :
  exists lines,
    Controls.addressLines (Some (JStr "1 High Street, Leeds , LS1")) = Ok (Some lines)
    /\ length lines = 3%nat.
Proof.
  destruct (proj1 (proj2 (addressLines_spec (Some (JStr "1 High Street, Leeds , LS1"))))
              "1 High Street, Leeds , LS1"%string eq_refl ltac:(discriminate))
    as (lines & H & Hl & _).
  exists lines. split; [exact H | exact Hl].
Defined.

End Cells.

(** ** A session on the page *)

Section Sessions.

Variable fetch : Home.File -> Home.Fetched.

Local Abbreviation isPdf := (fun f : Home.File => Home.type f = "application/pdf").

(** The two handlers of a file leave a PDF or nothing, and touch neither
    [loading] nor [result]. *)
Lemma handleFileChange_effect (selectedFile : option Home.File) (st : Home.State) :
  let st' := Home.handleFileChange selectedFile st in
  Home.loading st' = Home.loading st
  /\ Home.result st' = Home.result st
  /\ (forall f, Home.file st' = Some f -> isPdf f).
Proof.
  cbv zeta. unfold Home.handleFileChange. destruct selectedFile as [f|].
  - destruct (Home.type f =? "application/pdf")%string eqn:E;
      cbn [Home.loading Home.file Home.result]; repeat split; try discriminate.
    intros f' [= <-]. now apply String.eqb_eq.
  - cbn [Home.loading Home.file Home.result]. repeat split. discriminate.
Qed.

(** The second part of [handleSubmit] turns [loading] off, keeps the
    file, and sets a result only from a response that was [ok] and had
    no truthy [error]. *)
Lemma submitSettle_effect (fetched : Home.Fetched) (st : Home.State) :
  let st' := Home.submitSettle fetched st in
  Home.loading st' = false
  /\ Home.file st' = Home.file st
  /\ (forall data, Home.result st' = Some data ->
      Home.result st = Some data
      \/ (truthy (field data "error") = false
          /\ fetched = Home.Responded true (Ok data))).
Proof.
  cbv zeta. unfold Home.submitSettle.
  destruct fetched as [|ok [body|e]];
    cbn [Home.loading Home.file Home.result]; try (repeat split; auto; fail).
  destruct (Controls.isNull (Some body)) eqn:En.
  - apply isNull_spec in En. subst body. cbn [get Home.loading Home.file Home.result].
    repeat split; auto.
  - assert (Hnull : body <> JNull) by (intros ->; discriminate).
    rewrite (get_field body _ Hnull).
    destruct ok; cbn [negb orb].
    + destruct (truthy (field body "error")) eqn:Et;
        cbn [Home.loading Home.file Home.result]; repeat split; auto.
      intros data [= <-]. right. split; [exact Et | reflexivity].
    + cbn [Home.loading Home.file Home.result]. repeat split; auto.
Qed.

(** X16.  The handlers interleave: while a request is pending the page
    is rendered, and a file can be chosen, dropped or cleared, the form
    submitted and responses arrive in any order.  In every state so
    reached, the page is loading only while a request is pending; the
    file it holds, if any, and the file of every pending request is a
    PDF; and the guard of the analysis holds only with a result that is
    the body of a response to a PDF, a response that was [ok] and had no
    truthy [error]. *)
Theorem session_invariant (s : Session.State) :
  Session.reachable fetch s ->
  (Home.loading (Session.page s) = true -> Session.pending s <> [])
  /\ (forall f, Home.file (Session.page s) = Some f -> isPdf f)
  /\ Forall isPdf (Session.pending s)
  /\ (forall data, Home.analysed (Session.page s) = Some data ->
      truthy (field data "error") = false
      /\ exists f, isPdf f /\ fetch f = Home.Responded true (Ok data)).
Proof.
  assert (Hres : forall s0, Session.reachable fetch s0 ->
            (Home.loading (Session.page s0) = true -> Session.pending s0 <> [])
            /\ (forall f, Home.file (Session.page s0) = Some f -> isPdf f)
            /\ Forall isPdf (Session.pending s0)
            /\ (forall data, Home.result (Session.page s0) = Some data ->
                truthy (field data "error") = false
                /\ exists f, isPdf f /\ fetch f = Home.Responded true (Ok data))).
  { induction 1 as [|s0 a _ (Hl & Hf & Hp & Hr)].
    - split; [discriminate|]. split; [discriminate|]. split; [constructor|]. discriminate.
    - destruct a as [selectedFile | | | request]; cbn [Session.act].
      + destruct (handleFileChange_effect selectedFile (Session.page s0)) as (El & Er & Ef).
        cbn [Session.page Session.pending]. rewrite El, Er. auto.
      + cbn [Session.page Session.pending Home.clearFile Home.loading Home.file Home.result].
        split; [exact Hl|]. split; [discriminate|]. split; assumption.
      + destruct (Home.file (Session.page s0)) as [f|] eqn:Ef;
          [|split; [exact Hl|]; split; [rewrite Ef; discriminate|]; split; assumption].
        cbn [Session.page Session.pending Home.submitBegin
             Home.loading Home.file Home.result].
        split; [intros _ H; now apply app_eq_nil in H as [_ H]|].
        split; [intros f' Hf'; apply Hf; congruence|].
        split; [|discriminate].
        apply Forall_app. split; [exact Hp|]. constructor; [now apply Hf | constructor].
      + destruct (Session.pending s0 !! request) as [f|] eqn:Ep;
          [|split; [exact Hl|]; split; [exact Hf|]; split; assumption].
        destruct (submitSettle_effect (fetch f) (Session.page s0)) as (El & Ef & Er).
        cbn [Session.page Session.pending].
        split; [rewrite El; discriminate|].
        split; [rewrite Ef; exact Hf|].
        split; [now apply Forall_delete|].
        intros data Hd. apply Er in Hd as [Hd | [Ht Hd]]; [now apply Hr|].
        split; [exact Ht|]. exists f. split; [|exact Hd].
        exact (Forall_lookup_1 _ _ _ _ Hp Ep). }
  intros H. destruct (Hres s H) as (Hl & Hf & Hp & Hr).
  split; [exact Hl|]. split; [exact Hf|]. split; [exact Hp|].
  intros data. unfold Home.analysed.
  destruct (truthy (Home.result (Session.page s))
            && negb (truthy (Home.error (Session.page s)))); [|discriminate].
  apply Hr.
Qed.

End Sessions.

Lemma session_invariant_witness :
  Session.reachable Cases.answers (Session.run Cases.answers Cases.submitted)
  /\ Home.loading (Session.page (Session.run Cases.answers Cases.submitted)) = true
  /\ Session.pending (Session.run Cases.answers Cases.submitted) <> [].
Proof.
  assert (Hr : Session.reachable Cases.answers (Session.run Cases.answers Cases.submitted))
    by (repeat apply Session.reachable_act; apply Session.reachable_initial).
  split; [exact Hr|]. split; [reflexivity|].
  apply (proj1 (session_invariant _ _ Hr)). reflexivity.
Defined.

(** The page while a request is pending.  After a PDF is chosen and the
    form submitted the page is loading.  If the file is then cleared and
    the response arrives, the guard of the analysis holds although the
    page holds no file.  If instead something that is not a PDF is
    dropped, the error of the drop stays when the response arrives, and
    the guard does not hold although the result is set. *)
Example session_interleaved :
  Home.loading (Session.page (Session.run Cases.answers Cases.submitted)) = true
  /\ (let s := Session.run Cases.answers
                 (Cases.submitted ++ [Session.Clear; Session.Settle 0]) in
      Home.file (Session.page s) = None
      /\ Home.loading (Session.page s) = false
      /\ Home.analysed (Session.page s) = Some (JObj ∅))
  /\ (let s := Session.run Cases.answers
                 (Cases.submitted ++ [Session.Choose None; Session.Settle 0]) in
      Home.result (Session.page s) = Some (JObj ∅)
      /\ Home.error (Session.page s)
         = Some (JStr "Invalid file type. Please upload a PDF.")
      /\ Home.analysed (Session.page s) = None).
Proof. repeat split. Qed.
